(** * Agent service lifecycle: pkg/fleet/installer/service/datadog_agent.go

    A shallow embedding of the installer's systemd orchestration
    (SetupAgent, RemoveAgent, StartAgentExperiment, StopAgentExperiment,
    setInstallerAgentGroup) and the properties of its call sequences.

    The Go functions only sequence calls to collaborators that live
    outside the file (systemd primitives, the privileged helper, the
    install-info writer, the tracer and the logger).  A program is therefore
    a finite tree of such calls; a host answers each call and the
    interpreter records the answered calls in order. *)

From Stdlib Require Import String Ascii List Bool Arith Lia.
Import ListNotations.
Open Scope string_scope.
Open Scope list_scope.

(* ================================================================== *)
(** ** Go values *)

(** A non-nil Go [error]; only its message is observable ([Error()]).
    A value of Go type [error] is an [option error], [None] being [nil]. *)
Inductive error : Type := MkError (msg : string).

Definition Error (e : error) : string := let 'MkError m := e in m.

(** [strings.HasPrefix]. *)
Fixpoint HasPrefix (s p : string) : bool :=
  match p, s with
  | EmptyString, _ => true
  | String _ _, EmptyString => false
  | String a p', String b s' => Ascii.eqb a b && HasPrefix s' p'
  end.

(** [strings.Contains s substr]: [substr] occurs somewhere in [s]. *)
Fixpoint Contains (s substr : string) : bool :=
  HasPrefix s substr ||
  match s with
  | EmptyString => false
  | String _ s' => Contains s' substr
  end.

(** [fmt.Sprintf] restricted to the only verb the file uses, [%s]. *)
Fixpoint Sprintf (format : string) (args : list string) : string :=
  match format with
  | EmptyString => EmptyString
  | String c rest =>
      match rest with
      | String d rest' =>
          if (Ascii.eqb c "%" && Ascii.eqb d "s")%bool then
            match args with
            | a :: args' => a ++ Sprintf rest' args'
            | [] => "%!s(MISSING)" ++ Sprintf rest' []
            end
          else String c (Sprintf rest args)
      | EmptyString => String c EmptyString
      end
  end.

(** [fmt.Errorf]: a fresh error carrying the formatted message. *)
Definition Errorf (format : string) (args : list string) : error :=
  MkError (Sprintf format args).

(* ================================================================== *)
(** ** Calls to the collaborators *)

(** The six per-unit systemd primitives. *)
Inductive action : Type := Load | Enable | Start | Stop | Disable | Remove.

(** Every call the file makes to code outside it. *)
Inductive call : Type :=
| ExecOutput (name : string) (args : list string)
    (* exec.Command(name, args...).Output() *)
| ExecuteHelperCommand (command : string)
| UnitOp (a : action) (unit : string)
    (* loadUnit, enableUnit, startUnit, stopUnit, disableUnit, removeUnit *)
| SystemdReload
| CreateAgentSymlink
| RmAgentSymlink
| WriteInstallInfo (tool toolVersion : string)
| RmInstallInfo
| StartSpan (operation : string)
    (* tracer.StartSpanFromContext(ctx, operation) *)
| FinishSpan (operation : string) (err : option error)
    (* span.Finish() / span.Finish(tracer.WithError(err)) *)
| LogErrorf (msg : string)
| LogWarnf (msg : string).

(** What each call hands back to the caller. *)
Definition resp (c : call) : Type :=
  match c with
  | ExecOutput _ _ => (string * option error)%type
  | ExecuteHelperCommand _ => option error
  | UnitOp _ _ => option error
  | SystemdReload => option error
  | CreateAgentSymlink => option error
  | RmAgentSymlink => option error
  | WriteInstallInfo _ _ => option error
  | RmInstallInfo => unit
  | StartSpan _ => unit
  | FinishSpan _ _ => unit
  | LogErrorf _ => unit
  | LogWarnf _ => unit
  end.

(** The error component of an answer ([None] when the call has none). *)
Definition call_err (c : call) : resp c -> option error :=
  match c return resp c -> option error with
  | ExecOutput _ _ => fun r => snd r
  | ExecuteHelperCommand _ => fun r => r
  | UnitOp _ _ => fun r => r
  | SystemdReload => fun r => r
  | CreateAgentSymlink => fun r => r
  | RmAgentSymlink => fun r => r
  | WriteInstallInfo _ _ => fun r => r
  | RmInstallInfo => fun _ => None
  | StartSpan _ => fun _ => None
  | FinishSpan _ _ => fun _ => None
  | LogErrorf _ => fun _ => None
  | LogWarnf _ => fun _ => None
  end.

(** Tracing and logging calls, as opposed to operations on the host. *)
Definition isTelemetry (c : call) : bool :=
  match c with
  | StartSpan _ | FinishSpan _ _ | LogErrorf _ | LogWarnf _ => true
  | _ => false
  end.

(* ================================================================== *)
(** ** Programs, hosts and runs *)

(** A program returning an [A]: it either returns, or makes a call and
    continues with the answer. *)
Inductive prog (A : Type) : Type :=
| Ret (a : A)
| Do (c : call) (k : resp c -> prog A).

Arguments Ret {A} a.
Arguments Do {A} c k.

Fixpoint bind {A B : Type} (p : prog A) (f : A -> prog B) : prog B :=
  match p with
  | Ret a => f a
  | Do c k => Do c (fun r => bind (k r) f)
  end.

Declare Scope prog_scope.
Delimit Scope prog_scope with prog.

Notation "x <- p ;; q" := (bind p (fun x => q))
  (at level 100, p at next level, right associativity) : prog_scope.

(** Go's [if err = step; err != nil { return }] followed by [rest], in a
    function whose result is [err]. *)
Notation "'check' p ;; q" :=
  (bind p (fun err => match err with Some e => Ret (Some e) | None => q end))
  (at level 100, p at next level, right associativity) : prog_scope.

Open Scope prog_scope.

(** [for _, unit := range units { body }] where [body] may leave the
    enclosing function with an error. *)
Fixpoint forRange (units : list string) (body : string -> prog (option error))
  : prog (option error) :=
  match units with
  | [] => Ret None
  | unit :: units' => check body unit ;; forRange units' body
  end.

(** One answered call. *)
Record event : Type := Ev { ev_call : call; ev_resp : resp ev_call }.

Definition ev_err (e : event) : option error := call_err (ev_call e) (ev_resp e).

(** A host with state [W] answers every call and moves to a new state. *)
Definition host (W : Type) : Type := forall c : call, W -> resp c * W.

(** Running a program on a host: the result, the final host state and the
    answered calls in the order they were made. *)
Fixpoint run {W A : Type} (h : host W) (p : prog A) (w : W)
  : A * W * list event :=
  match p with
  | Ret a => (a, w, [])
  | Do c k =>
      let '(r, w1) := h c w in
      let '(a, w2, t) := run h (k r) w1 in
      (a, w2, Ev c r :: t)
  end.

Definition result {W A : Type} (h : host W) (p : prog A) (w : W) : A :=
  fst (fst (run h p w)).

Definition final {W A : Type} (h : host W) (p : prog A) (w : W) : W :=
  snd (fst (run h p w)).

Definition trace {W A : Type} (h : host W) (p : prog A) (w : W) : list event :=
  snd (run h p w).

(** The host state right after one call. *)
Definition after {W : Type} (h : host W) (c : call) (w : W) : W := snd (h c w).

(** The calls of a trace, and those among them that act on the host. *)
Definition calls (t : list event) : list call := map ev_call t.

Definition hostEvents (t : list event) : list event :=
  filter (fun ev => negb (isTelemetry (ev_call ev))) t.

Definition hostOps (t : list event) : list call := calls (hostEvents t).

(** The per-unit operations of a trace. *)
Fixpoint unitOps (cs : list call) : list (action * string) :=
  match cs with
  | [] => []
  | UnitOp a u :: cs' => (a, u) :: unitOps cs'
  | _ :: cs' => unitOps cs'
  end.

(* ================================================================== *)
(** ** The unit registry *)

Definition agentUnit         := "datadog-agent.service".
Definition traceAgentUnit    := "datadog-agent-trace.service".
Definition processAgentUnit  := "datadog-agent-process.service".
Definition systemProbeUnit   := "datadog-agent-sysprobe.service".
Definition securityAgentUnit := "datadog-agent-security.service".
Definition agentExp          := "datadog-agent-exp.service".
Definition traceAgentExp     := "datadog-agent-trace-exp.service".
Definition processAgentExp   := "datadog-agent-process-exp.service".
Definition systemProbeExp    := "datadog-agent-sysprobe-exp.service".
Definition securityAgentExp  := "datadog-agent-security-exp.service".

Definition stableUnits : list string :=
  [ agentUnit; traceAgentUnit; processAgentUnit; systemProbeUnit;
    securityAgentUnit ].

Definition experimentalUnits : list string :=
  [ agentExp; traceAgentExp; processAgentExp; systemProbeExp;
    securityAgentExp ].

(* ================================================================== *)
(** ** The collaborators, as single calls *)

Definition loadUnit (unit : string) : prog (option error) := Do (UnitOp Load unit) Ret.
Definition enableUnit (unit : string) : prog (option error) := Do (UnitOp Enable unit) Ret.
Definition startUnit (unit : string) : prog (option error) := Do (UnitOp Start unit) Ret.
Definition stopUnit (unit : string) : prog (option error) := Do (UnitOp Stop unit) Ret.
Definition disableUnit (unit : string) : prog (option error) := Do (UnitOp Disable unit) Ret.
Definition removeUnit (unit : string) : prog (option error) := Do (UnitOp Remove unit) Ret.
Definition systemdReload : prog (option error) := Do SystemdReload Ret.
Definition createAgentSymlink : prog (option error) := Do CreateAgentSymlink Ret.
Definition rmAgentSymlink : prog (option error) := Do RmAgentSymlink Ret.
Definition executeHelperCommand (command : string) : prog (option error) :=
  Do (ExecuteHelperCommand command) Ret.
Definition installinfo_WriteInstallInfo (tool toolVersion : string)
  : prog (option error) := Do (WriteInstallInfo tool toolVersion) Ret.
Definition installinfo_RmInstallInfo : prog unit := Do RmInstallInfo Ret.
Definition exec_Output (name : string) (args : list string)
  : prog (string * option error) := Do (ExecOutput name args) Ret.
Definition tracer_StartSpan (operation : string) : prog unit :=
  Do (StartSpan operation) Ret.
Definition span_Finish (operation : string) (err : option error) : prog unit :=
  Do (FinishSpan operation err) Ret.
Definition log_Errorf (format : string) (args : list string) : prog unit :=
  Do (LogErrorf (Sprintf format args)) Ret.
Definition log_Warnf (format : string) (args : list string) : prog unit :=
  Do (LogWarnf (Sprintf format args)) Ret.

(** Go's [if err := step; err != nil { return wrap(err) }], as a loop or
    function body fragment: the step's error, rewritten by [wrap]. *)
Definition orReturn (p : prog (option error)) (wrap : error -> error)
  : prog (option error) :=
  err <- p ;;
  match err with
  | Some e => Ret (Some (wrap e))
  | None => Ret None
  end.

(* ================================================================== *)
(** ** The service functions *)

Section Service.

(** The helper command constant, declared elsewhere in the package. *)
Variable addInstallerToAgentGroup : string.

(** setInstallerAgentGroup adds the dd-installer to the dd-agent group if
    it's not already in it. *)
Definition setInstallerAgentGroup : prog (option error) :=
  r <- exec_Output "id" ["-Gn"; "dd-installer"] ;;
  let '(out, err) := r in
  match err with
  | Some e => Ret (Some e)
  | None =>
      if Contains out "dd-agent" then Ret None
      else executeHelperCommand addInstallerToAgentGroup
  end.

(** The body of RemoveAgent, between the span's start and its deferred
    finish. *)
Definition RemoveAgentBody : prog (option error) :=
  (* stop experiments, they can restart stable agent *)
  check forRange experimentalUnits (fun unit =>
    orReturn (stopUnit unit)
      (fun err => Errorf "Failed to stop %s: %s" [unit; Error err])) ;;
  (* stop stable agents *)
  check forRange stableUnits (fun unit =>
    orReturn (stopUnit unit)
      (fun err => Errorf "Failed to stop %s: %s" [unit; Error err])) ;;
  (* purge experimental units *)
  check forRange experimentalUnits (fun unit =>
    check orReturn (disableUnit unit)
      (fun err => Errorf "Failed to disable %s: %s" [unit; Error err]) ;;
    check orReturn (removeUnit unit)
      (fun err => Errorf "Failed to remove %s: %s" [unit; Error err]) ;;
    Ret None) ;;
  (* purge stable units *)
  check forRange stableUnits (fun unit =>
    check orReturn (disableUnit unit)
      (fun err => Errorf "Failed to disable %s: %s" [unit; Error err]) ;;
    check orReturn (removeUnit unit)
      (fun err => Errorf "Failed to remove %s: %s" [unit; Error err]) ;;
    Ret None) ;;
  check orReturn rmAgentSymlink
    (fun err => Errorf "Failed to remove agent symlink: %s" [Error err]) ;;
  _ <- installinfo_RmInstallInfo ;;
  Ret None.

(** RemoveAgent stops and removes the agent. *)
Definition RemoveAgent : prog (option error) :=
  _ <- tracer_StartSpan "remove_agent_units" ;;
  err <- RemoveAgentBody ;;
  _ <- span_Finish "remove_agent_units" None ;;
  Ret err.

(** The body of SetupAgent: the forward sequence, whose outcome is the
    named result [err] as the deferred function finds it. *)
Definition SetupAgentBody : prog (option error) :=
  check setInstallerAgentGroup ;;
  check forRange stableUnits loadUnit ;;
  check forRange experimentalUnits loadUnit ;;
  check systemdReload ;;
  check forRange stableUnits enableUnit ;;
  check forRange stableUnits startUnit ;;
  check createAgentSymlink ;;
  (* write installinfo before start, or the agent could write it *)
  check installinfo_WriteInstallInfo "installer_package" "manual_update" ;;
  Ret None.

(** The function deferred by SetupAgent.  It reads the named result
    [err], may assign it again, and what it leaves there is what
    SetupAgent returns. *)
Definition SetupAgentDeferred (err : option error) : prog (option error) :=
  err <- match err with
         | Some e =>
             _ <- log_Errorf "Failed to setup agent: %s, reverting" [Error e] ;;
             err <- RemoveAgent ;;
             _ <- match err with
                  | Some e' =>
                      log_Warnf "Failed to revert agent setup: %s" [Error e']
                  | None => Ret tt
                  end ;;
             Ret err
         | None => Ret None
         end ;;
  _ <- span_Finish "setup_agent" err ;;
  Ret err.

(** SetupAgent installs and starts the agent. *)
Definition SetupAgent : prog (option error) :=
  _ <- tracer_StartSpan "setup_agent" ;;
  err <- SetupAgentBody ;;
  SetupAgentDeferred err.

(** StartAgentExperiment starts the agent experiment. *)
Definition StartAgentExperiment : prog (option error) := startUnit agentExp.

(** StopAgentExperiment stops the agent experiment. *)
Definition StopAgentExperiment : prog (option error) := startUnit agentUnit.

End Service.

(* ================================================================== *)
(** ** Fail-fast plans

    Both orchestrators are straight-line and fail-fast: a fixed list of
    calls is attempted in order, and the first failing call ends the
    sequence with its error, possibly rewritten.  [execPlan] is that reading
    of a list of steps; the function bodies above are shown equivalent to
    it below. *)

Definition step : Type := (call * (error -> error))%type.

Fixpoint execPlan (plan : list step) : prog (option error) :=
  match plan with
  | [] => Ret None
  | (c, wrap) :: plan' =>
      Do c (fun r =>
        match call_err c r with
        | Some e => Ret (Some (wrap e))
        | None => execPlan plan'
        end)
  end.

Definition unchanged (e : error) : error := e.

Definition onUnits (a : action) (units : list string) : list call :=
  map (UnitOp a) units.

(** The steps of SetupAgent that follow the group check. *)
Definition setupCalls : list call :=
  onUnits Load stableUnits ++ onUnits Load experimentalUnits
  ++ [SystemdReload]
  ++ onUnits Enable stableUnits ++ onUnits Start stableUnits
  ++ [CreateAgentSymlink; WriteInstallInfo "installer_package" "manual_update"].

Definition setupPlan : list step := map (fun c => (c, unchanged)) setupCalls.

(** The message RemoveAgent gives to a failure of each of its calls. *)
Definition removeWrap (c : call) (err : error) : error :=
  match c with
  | UnitOp Stop unit => Errorf "Failed to stop %s: %s" [unit; Error err]
  | UnitOp Disable unit => Errorf "Failed to disable %s: %s" [unit; Error err]
  | UnitOp Remove unit => Errorf "Failed to remove %s: %s" [unit; Error err]
  | RmAgentSymlink => Errorf "Failed to remove agent symlink: %s" [Error err]
  | _ => err
  end.

Definition purge (units : list string) : list call :=
  flat_map (fun unit => [UnitOp Disable unit; UnitOp Remove unit]) units.

(** The steps of RemoveAgent. *)
Definition removeCalls : list call :=
  onUnits Stop experimentalUnits ++ onUnits Stop stableUnits
  ++ purge experimentalUnits ++ purge stableUnits
  ++ [RmAgentSymlink; RmInstallInfo].

Definition removePlan : list step := map (fun c => (c, removeWrap c)) removeCalls.

(** The query made by the group check. *)
Definition groupQuery : call := ExecOutput "id" ["-Gn"; "dd-installer"].

(** What SetupAgent does once the group check has passed. *)
Definition setupSteps : prog (option error) :=
  check forRange stableUnits loadUnit ;;
  check forRange experimentalUnits loadUnit ;;
  check systemdReload ;;
  check forRange stableUnits enableUnit ;;
  check forRange stableUnits startUnit ;;
  check createAgentSymlink ;;
  check installinfo_WriteInstallInfo "installer_package" "manual_update" ;;
  Ret None.

(** Membership of a unit name in a registry sequence, as a test. *)
Definition isUnitOf (units : list string) (unit : string) : bool :=
  existsb (String.eqb unit) units.

(** [stopUnit] on one of [units]. *)
Definition isStopOf (units : list string) (c : call) : bool :=
  match c with
  | UnitOp Stop unit => isUnitOf units unit
  | _ => false
  end.

(** A call that is not a unit operation, or one that only loads. *)
Definition onlyLoads (units : list string) (c : call) : bool :=
  match c with
  | UnitOp Load _ => true
  | UnitOp _ unit => negb (isUnitOf units unit)
  | _ => true
  end.

(** The kinds of call RemoveAgent makes. *)
Definition isRemoveStep (c : call) : bool :=
  match c with
  | UnitOp Stop _ | UnitOp Disable _ | UnitOp Remove _ => true
  | RmAgentSymlink | RmInstallInfo => true
  | _ => false
  end.

(** What RemoveAgent does after the experimental units are stopped. *)
Definition removeCallsAfterExperimentalStops : list call :=
  onUnits Stop stableUnits
  ++ purge experimentalUnits ++ purge stableUnits
  ++ [RmAgentSymlink; RmInstallInfo].

(** A call that is not [loadUnit], [enableUnit] or [startUnit]. *)
Definition notForward (c : call) : bool :=
  match c with
  | UnitOp Load _ | UnitOp Enable _ | UnitOp Start _ => false
  | _ => true
  end.

(** Two programs that make the same calls and continue alike on every
    answer. *)
Inductive peq {A : Type} : prog A -> prog A -> Prop :=
| peq_Ret (a : A) : peq (Ret a) (Ret a)
| peq_Do (c : call) (k k' : resp c -> prog A) :
    (forall r, peq (k r) (k' r)) -> peq (Do c k) (Do c k').

Definition succeeded (ev : event) : Prop := ev_err ev = None.

(** The possible runs of a plan: every call answered without error, or a
    prefix answered without error and then one failing call. *)
Inductive planRun (plan : list step) : list event -> option error -> Prop :=
| planRun_done (t : list event) :
    calls t = map fst plan ->
    Forall succeeded t ->
    planRun plan t None
| planRun_abort pre c wrap post tpre ev e :
    plan = pre ++ (c, wrap) :: post ->
    calls tpre = map fst pre ->
    Forall succeeded tpre ->
    ev_call ev = c ->
    ev_err ev = Some e ->
    planRun plan (tpre ++ [ev]) (Some (wrap e)).

(* ================================================================== *)
(** ** The registry as a table of subcomponents *)

Inductive subcomponent : Type :=
  MainAgent | TraceAgent | ProcessAgent | SystemProbe | SecurityAgent.

Inductive channel : Type := Stable | Experimental.

(** The constant block, read as a table: which name serves which
    subcomponent on which channel. *)
Definition unitName (ch : channel) (s : subcomponent) : string :=
  match ch, s with
  | Stable, MainAgent => agentUnit
  | Stable, TraceAgent => traceAgentUnit
  | Stable, ProcessAgent => processAgentUnit
  | Stable, SystemProbe => systemProbeUnit
  | Stable, SecurityAgent => securityAgentUnit
  | Experimental, MainAgent => agentExp
  | Experimental, TraceAgent => traceAgentExp
  | Experimental, ProcessAgent => processAgentExp
  | Experimental, SystemProbe => systemProbeExp
  | Experimental, SecurityAgent => securityAgentExp
  end.

Definition subcomponents : list subcomponent :=
  [MainAgent; TraceAgent; ProcessAgent; SystemProbe; SecurityAgent].

(** [strings.CutSuffix]: [s] without a trailing [suffix], if it has one. *)
Fixpoint CutSuffix (s suffix : string) : option string :=
  if String.eqb s suffix then Some EmptyString
  else match s with
       | EmptyString => None
       | String c s' => option_map (String c) (CutSuffix s' suffix)
       end.

(** The naming scheme of the constants: the experimental unit of a stable
    unit carries [-exp] in front of the [.service] suffix. *)
Definition experimentalName (stable : string) : option string :=
  option_map (fun base => (base ++ "-exp.service")%string) (CutSuffix stable ".service").

(* ================================================================== *)
(** ** Scripted hosts

    A stateless host: [id] prints [out], and every call fails exactly as
    [fails] says. *)

Definition answer (out : string) (err : option error) (c : call) : resp c :=
  match c return resp c with
  | ExecOutput _ _ => (out, err)
  | ExecuteHelperCommand _ => err
  | UnitOp _ _ => err
  | SystemdReload => err
  | CreateAgentSymlink => err
  | RmAgentSymlink => err
  | WriteInstallInfo _ _ => err
  | RmInstallInfo => tt
  | StartSpan _ => tt
  | FinishSpan _ _ => tt
  | LogErrorf _ => tt
  | LogWarnf _ => tt
  end.

Definition scripted (out : string) (fails : call -> option error) : host unit :=
  fun c w => (answer out (fails c) c, w).

(** A host that counts the calls it has answered and fails the one numbered
    [n] (from 0) with [e]. *)
Definition failingAt (out : string) (n : nat) (e : error) : host nat :=
  fun c w => (answer out (if Nat.eqb w n then Some e else None) c, S w).

Definition neverFails (c : call) : option error := None.

(** The helper is refused; everything else works. *)
Definition helperRefused (c : call) : option error :=
  match c with
  | ExecuteHelperCommand _ => Some (MkError "permission denied")
  | _ => None
  end.

(** [id] itself fails; everything else works. *)
Definition idFails (c : call) : option error :=
  match c with
  | ExecOutput _ _ => Some (MkError "exit status 1")
  | _ => None
  end.

(** The third stable unit cannot be enabled, and during the rollback the
    first experimental unit cannot be stopped. *)
Definition enableAndStopFail (c : call) : option error :=
  match c with
  | UnitOp Enable unit =>
      if String.eqb unit processAgentUnit then Some (MkError "enable refused")
      else None
  | UnitOp Stop unit =>
      if String.eqb unit agentExp then Some (MkError "stop refused") else None
  | _ => None
  end.

(** The third stable unit cannot be enabled; everything else works. *)
Definition enableFails (c : call) : option error :=
  match c with
  | UnitOp Enable unit =>
      if String.eqb unit processAgentUnit then Some (MkError "enable refused")
      else None
  | _ => None
  end.

(** The value the examples give to the helper command constant. *)
Definition helperCommand : string := "add-installer-to-agent-group".

(* ================================================================== *)
(** ** Tests on calls and on lists of calls *)

Definition action_eqb (a b : action) : bool :=
  match a, b with
  | Load, Load | Enable, Enable | Start, Start => true
  | Stop, Stop | Disable, Disable | Remove, Remove => true
  | _, _ => false
  end.

Definition error_eqb (e e' : error) : bool := String.eqb (Error e) (Error e').

Definition nilable_eqb (e e' : option error) : bool :=
  match e, e' with
  | Some a, Some b => error_eqb a b
  | None, None => true
  | _, _ => false
  end.

Fixpoint strings_eqb (l l' : list string) : bool :=
  match l, l' with
  | [], [] => true
  | s :: l, s' :: l' => String.eqb s s' && strings_eqb l l'
  | _, _ => false
  end.

(** Equality of calls, as a test. *)
Definition call_eqb (c d : call) : bool :=
  match c, d with
  | ExecOutput n a, ExecOutput n' a' => String.eqb n n' && strings_eqb a a'
  | ExecuteHelperCommand x, ExecuteHelperCommand x' => String.eqb x x'
  | UnitOp a u, UnitOp a' u' => action_eqb a a' && String.eqb u u'
  | SystemdReload, SystemdReload => true
  | CreateAgentSymlink, CreateAgentSymlink => true
  | RmAgentSymlink, RmAgentSymlink => true
  | WriteInstallInfo t v, WriteInstallInfo t' v' => String.eqb t t' && String.eqb v v'
  | RmInstallInfo, RmInstallInfo => true
  | StartSpan o, StartSpan o' => String.eqb o o'
  | FinishSpan o e, FinishSpan o' e' => String.eqb o o' && nilable_eqb e e'
  | LogErrorf m, LogErrorf m' => String.eqb m m'
  | LogWarnf m, LogWarnf m' => String.eqb m m'
  | _, _ => false
  end.

(** No call occurs twice in the list. *)
Fixpoint noRepeat (cs : list call) : bool :=
  match cs with
  | [] => true
  | c :: cs' => negb (existsb (call_eqb c) cs') && noRepeat cs'
  end.

(** [disableUnit] or [removeUnit]. *)
Definition isPurge (c : call) : bool :=
  match c with
  | UnitOp Disable _ | UnitOp Remove _ => true
  | _ => false
  end.

(** [disableUnit] or [removeUnit] on one of [units]. *)
Definition isPurgeOf (units : list string) (c : call) : bool :=
  match c with
  | UnitOp Disable unit | UnitOp Remove unit => isUnitOf units unit
  | _ => false
  end.

(** [enableUnit] or [startUnit]. *)
Definition isActivation (c : call) : bool :=
  match c with
  | UnitOp Enable _ | UnitOp Start _ => true
  | _ => false
  end.

Definition isStart (c : call) : bool :=
  match c with
  | UnitOp Start _ => true
  | _ => false
  end.

Definition isWriteInstallInfo (c : call) : bool :=
  match c with
  | WriteInstallInfo _ _ => true
  | _ => false
  end.

(** Removing the symlink or the install-info marker. *)
Definition isFinalCleanup (c : call) : bool :=
  match c with
  | RmAgentSymlink | RmInstallInfo => true
  | _ => false
  end.

(** At position [i + 1] of [cs] there is no [removeUnit], or position [i]
    holds the [disableUnit] of the same unit. *)
Definition removeFollowsDisableAt (cs : list call) (i : nat) : bool :=
  match nth_error cs (S i) with
  | Some (UnitOp Remove unit) =>
      match nth_error cs i with
      | Some (UnitOp Disable unit') => String.eqb unit' unit
      | _ => false
      end
  | _ => true
  end.

(** The list does not start with a [removeUnit], and every [removeUnit] in
    it comes right after the [disableUnit] of the same unit. *)
Definition removeFollowsDisable (cs : list call) : bool :=
  match cs with
  | UnitOp Remove _ :: _ => false
  | _ => forallb (removeFollowsDisableAt cs) (seq 0 (length cs))
  end.

(** The parts of the two sequences of calls, in the order they are made. *)
Definition stopCalls : list call :=
  onUnits Stop experimentalUnits ++ onUnits Stop stableUnits.

Definition loadCalls : list call :=
  onUnits Load stableUnits ++ onUnits Load experimentalUnits.

(* ================================================================== *)
(** ** Runs of composed programs *)

Section Runs.

Context {W : Type} (h : host W).

Lemma trace_Ret {A : Type} (a : A) (w : W) : trace h (Ret a) w = [].
Proof. reflexivity. Qed.

Lemma result_Ret {A : Type} (a : A) (w : W) : result h (Ret a) w = a.
Proof. reflexivity. Qed.

Lemma final_Ret {A : Type} (a : A) (w : W) : final h (Ret a) w = w.
Proof. reflexivity. Qed.

Lemma run_Do {A : Type} (c : call) (k : resp c -> prog A) (w : W) :
  run h (Do c k) w =
  (result h (k (fst (h c w))) (after h c w),
   final h (k (fst (h c w))) (after h c w),
   Ev c (fst (h c w)) :: trace h (k (fst (h c w))) (after h c w)).
Proof.
  unfold result, final, trace, after. simpl.
  destruct (h c w) as [r w1]. simpl.
  destruct (run h (k r) w1) as [[a w2] t]. reflexivity.
Qed.

Lemma run_eta {A : Type} (p : prog A) (w : W) :
  run h p w = (result h p w, final h p w, trace h p w).
Proof.
  unfold result, final, trace. destruct (run h p w) as [[a w'] t]. reflexivity.
Qed.

Lemma run_bind {A B : Type} (p : prog A) (f : A -> prog B) (w : W) :
  run h (bind p f) w =
  (result h (f (result h p w)) (final h p w),
   final h (f (result h p w)) (final h p w),
   trace h p w ++ trace h (f (result h p w)) (final h p w)).
Proof.
  revert w. induction p as [a | c k IH]; intro w.
  - simpl. apply run_eta.
  - unfold result, final, trace in *. simpl.
    destruct (h c w) as [r w1]. rewrite IH.
    destruct (run h (k r) w1) as [[a w2] t]. simpl.
    destruct (run h (f a) w2) as [[b w3] t2]. reflexivity.
Qed.

Lemma result_bind {A B : Type} (p : prog A) (f : A -> prog B) (w : W) :
  result h (bind p f) w = result h (f (result h p w)) (final h p w).
Proof. unfold result at 1. rewrite run_bind. reflexivity. Qed.

Lemma final_bind {A B : Type} (p : prog A) (f : A -> prog B) (w : W) :
  final h (bind p f) w = final h (f (result h p w)) (final h p w).
Proof. unfold final at 1. rewrite run_bind. reflexivity. Qed.

Lemma trace_bind {A B : Type} (p : prog A) (f : A -> prog B) (w : W) :
  trace h (bind p f) w = trace h p w ++ trace h (f (result h p w)) (final h p w).
Proof. unfold trace at 1. rewrite run_bind. reflexivity. Qed.

Lemma result_Do {A : Type} (c : call) (k : resp c -> prog A) (w : W) :
  result h (Do c k) w = result h (k (fst (h c w))) (after h c w).
Proof. unfold result at 1. rewrite run_Do. reflexivity. Qed.

Lemma final_Do {A : Type} (c : call) (k : resp c -> prog A) (w : W) :
  final h (Do c k) w = final h (k (fst (h c w))) (after h c w).
Proof. unfold final at 1. rewrite run_Do. reflexivity. Qed.

Lemma trace_Do {A : Type} (c : call) (k : resp c -> prog A) (w : W) :
  trace h (Do c k) w = Ev c (fst (h c w)) :: trace h (k (fst (h c w))) (after h c w).
Proof. unfold trace at 1. rewrite run_Do. reflexivity. Qed.

Lemma run_peq {A : Type} (p q : prog A) :
  peq p q -> forall w, run h p w = run h q w.
Proof.
  induction 1 as [a | c k k' _ IH]; intro w.
  - reflexivity.
  - rewrite !run_Do. unfold result, final, trace. rewrite IH. reflexivity.
Qed.

(** A plan runs as [planRun] says, on every host and from every state. *)
Lemma run_execPlan (plan : list step) (w : W) :
  planRun plan (trace h (execPlan plan) w) (result h (execPlan plan) w).
Proof.
  revert w. induction plan as [| [c wrap] plan IH]; intro w.
  - apply planRun_done; [reflexivity | constructor].
  - simpl execPlan. rewrite trace_Do, result_Do.
    destruct (call_err c (fst (h c w))) as [e |] eqn:E.
    + apply (planRun_abort _ [] c wrap plan [] (Ev c (fst (h c w))) e);
        [reflexivity | reflexivity | constructor | reflexivity | exact E].
    + specialize (IH (after h c w)).
      inversion IH as [t Hc Hok Ht Hr | pre c' wrap' post tpre ev e Hp Hc Hok Hev He Ht Hr].
      * apply planRun_done.
        -- simpl. rewrite Hc. reflexivity.
        -- constructor; [exact E | exact Hok].
      * apply (planRun_abort _ ((c, wrap) :: pre) c' wrap' post
                 (Ev c (fst (h c w)) :: tpre) ev e).
        -- rewrite Hp. reflexivity.
        -- simpl. rewrite Hc. reflexivity.
        -- constructor; [exact E | exact Hok].
        -- exact Hev.
        -- exact He.
Qed.

End Runs.

Ltac run_steps :=
  repeat rewrite ?result_bind, ?trace_bind, ?final_bind,
    ?trace_Do, ?result_Do, ?final_Do, ?trace_Ret, ?result_Ret, ?final_Ret.

(* ================================================================== *)
(** ** The function bodies as plans *)

Ltac peq_steps :=
  repeat (cbv; first
    [ apply peq_Ret
    | apply peq_Do; let r := fresh "r" in intro r;
      try (destruct r as [? |]) ]).

Lemma RemoveAgentBody_plan : peq RemoveAgentBody (execPlan removePlan).
Proof. peq_steps. Qed.

Lemma setupSteps_plan : peq setupSteps (execPlan setupPlan).
Proof. peq_steps. Qed.

Lemma SetupAgentBody_split (cmd : string) :
  SetupAgentBody cmd =
  (check setInstallerAgentGroup cmd ;; setupSteps).
Proof. reflexivity. Qed.

(* ================================================================== *)
(** ** Lists of calls *)

Lemma calls_app (t1 t2 : list event) : calls (t1 ++ t2) = calls t1 ++ calls t2.
Proof. apply map_app. Qed.

Lemma hostEvents_app (t1 t2 : list event) :
  hostEvents (t1 ++ t2) = hostEvents t1 ++ hostEvents t2.
Proof. apply filter_app. Qed.

Lemma hostOps_app (t1 t2 : list event) :
  hostOps (t1 ++ t2) = hostOps t1 ++ hostOps t2.
Proof. unfold hostOps. rewrite hostEvents_app. apply calls_app. Qed.

Lemma hostEvents_all (t : list event) :
  forallb (fun c => negb (isTelemetry c)) (calls t) = true ->
  hostEvents t = t.
Proof.
  induction t as [| ev t IH]; simpl; intro H.
  - reflexivity.
  - apply andb_prop in H. destruct H as [H1 H2].
    rewrite H1. f_equal. exact (IH H2).
Qed.

Lemma forallb_prefix {A : Type} (f : A -> bool) (l1 l2 : list A) :
  forallb f (l1 ++ l2) = true -> forallb f l1 = true.
Proof. rewrite forallb_app. intro H. apply andb_prop in H. tauto. Qed.

Lemma unitOps_app (cs1 cs2 : list call) :
  unitOps (cs1 ++ cs2) = unitOps cs1 ++ unitOps cs2.
Proof.
  induction cs1 as [| c cs1 IH]; simpl.
  - reflexivity.
  - destruct c; simpl; rewrite IH; reflexivity.
Qed.

Lemma isUnitOf_In (units : list string) (unit : string) :
  isUnitOf units unit = true <-> In unit units.
Proof.
  unfold isUnitOf. rewrite existsb_exists. split.
  - intros [x [Hin Heq]]. apply String.eqb_eq in Heq. subst. exact Hin.
  - intro Hin. exists unit. split; [exact Hin | apply String.eqb_refl].
Qed.

(** In a list that splits into a part without [Q]-calls and a part without
    [P]-calls, every [P]-call comes before every [Q]-call. *)
Lemma split_order {A : Type} (P Q : A -> bool) (l1 l2 : list A) :
  forallb (fun x => negb (Q x)) l1 = true ->
  forallb (fun x => negb (P x)) l2 = true ->
  forall i j a b,
    nth_error (l1 ++ l2) i = Some a -> Q a = true ->
    nth_error (l1 ++ l2) j = Some b -> P b = true ->
    j < i /\ j < length l1 <= i.
Proof.
  intros H1 H2 i j a b Hi Qa Hj Pb.
  rewrite forallb_forall in H1, H2.
  assert (Hlen1 : length l1 <= i).
  { destruct (le_lt_dec (length l1) i) as [Hle | Hlt]; [exact Hle | exfalso].
    rewrite nth_error_app1 in Hi by exact Hlt.
    apply nth_error_In in Hi. apply H1 in Hi. rewrite Qa in Hi. discriminate. }
  assert (Hlen2 : j < length l1).
  { destruct (le_lt_dec (length l1) j) as [Hle | Hlt]; [exfalso | exact Hlt].
    rewrite nth_error_app2 in Hj by exact Hle.
    apply nth_error_In in Hj. apply H2 in Hj. rewrite Pb in Hj. discriminate. }
  lia.
Qed.

Lemma planRun_prefix (plan : list step) (t : list event) (r : option error) :
  planRun plan t r -> exists rest, map fst plan = calls t ++ rest.
Proof.
  intros [t' Hc _ | pre c wrap post tpre ev e Hp Hc _ Hev _].
  - exists []. rewrite app_nil_r. symmetry. exact Hc.
  - exists (map fst post). rewrite Hp, map_app, calls_app. simpl.
    rewrite Hc, Hev, <- app_assoc. reflexivity.
Qed.

Lemma map_fst_setupPlan : map fst setupPlan = setupCalls.
Proof. reflexivity. Qed.

Lemma map_fst_removePlan : map fst removePlan = removeCalls.
Proof. reflexivity. Qed.

(* ================================================================== *)
(** ** Runs of the service functions *)

Section ServiceRuns.

Context {W : Type} (h : host W).
Variable cmd : string.

Lemma RemoveAgentBody_run (w : W) :
  planRun removePlan (trace h RemoveAgentBody w) (result h RemoveAgentBody w).
Proof.
  unfold trace, result. rewrite (run_peq h _ _ RemoveAgentBody_plan).
  apply (run_execPlan h).
Qed.

Lemma setupSteps_run (w : W) :
  planRun setupPlan (trace h setupSteps w) (result h setupSteps w).
Proof.
  unfold trace, result. rewrite (run_peq h _ _ setupSteps_plan).
  apply (run_execPlan h).
Qed.

(** RemoveAgent is its body between the start and the finish of its
    span, and returns what the body returns. *)
Lemma RemoveAgent_run (w : W) :
  let w0 := after h (StartSpan "remove_agent_units") w in
  result h RemoveAgent w = result h RemoveAgentBody w0 /\
  hostEvents (trace h RemoveAgent w) = hostEvents (trace h RemoveAgentBody w0) /\
  calls (trace h RemoveAgent w) =
    StartSpan "remove_agent_units" :: calls (trace h RemoveAgentBody w0)
    ++ [FinishSpan "remove_agent_units" None].
Proof.
  unfold RemoveAgent, tracer_StartSpan, span_Finish.
  with_strategy opaque [RemoveAgentBody] run_steps.
  split; [reflexivity | split].
  - rewrite !hostEvents_app. cbn [hostEvents filter ev_call isTelemetry negb app].
    apply app_nil_r.
  - rewrite !calls_app. reflexivity.
Qed.

(** The three ways the group check can go. *)
Lemma setInstallerAgentGroup_run (w : W) :
  let r := fst (h groupQuery w) in
  let w1 := after h groupQuery w in
  let p := setInstallerAgentGroup cmd in
  (forall e, snd r = Some e ->
     trace h p w = [Ev groupQuery r] /\ result h p w = Some e /\ final h p w = w1)
  /\ (snd r = None -> Contains (fst r) "dd-agent" = true ->
     trace h p w = [Ev groupQuery r] /\ result h p w = None /\ final h p w = w1)
  /\ (snd r = None -> Contains (fst r) "dd-agent" = false ->
     trace h p w =
       [Ev groupQuery r;
        Ev (ExecuteHelperCommand cmd) (fst (h (ExecuteHelperCommand cmd) w1))]
     /\ result h p w = fst (h (ExecuteHelperCommand cmd) w1)
     /\ final h p w = after h (ExecuteHelperCommand cmd) w1).
Proof.
  unfold setInstallerAgentGroup, exec_Output, executeHelperCommand, groupQuery.
  run_steps.
  destruct (fst (h (ExecOutput "id" ["-Gn"; "dd-installer"]) w)) as [out [e' |]];
    cbn [fst snd]; (split; [| split]).
  - intros e He. injection He as <-. run_steps. repeat split.
  - discriminate.
  - discriminate.
  - discriminate.
  - intros _ HC. rewrite HC. run_steps. repeat split.
  - intros _ HC. rewrite HC. run_steps. repeat split.
Qed.

(** The group check only ever makes its query and the helper call, and
    returns an error exactly when one of the two failed. *)
Lemma setInstallerAgentGroup_calls (w : W) :
  let p := setInstallerAgentGroup cmd in
  (calls (trace h p w) = [groupQuery] \/
   calls (trace h p w) = [groupQuery; ExecuteHelperCommand cmd])
  /\ (Forall succeeded (trace h p w) -> result h p w = None).
Proof.
  destruct (setInstallerAgentGroup_run w) as [H1 [H2 H3]].
  cbv zeta in *.
  destruct (snd (fst (h groupQuery w))) as [e |] eqn:E.
  - destruct (H1 e eq_refl) as [Ht [Hr _]]. rewrite Ht, Hr. split.
    + left. reflexivity.
    + intro HF. inversion HF as [| ? ? Hs _].
      change (snd (fst (h groupQuery w)) = None) in Hs. congruence.
  - destruct (Contains (fst (fst (h groupQuery w))) "dd-agent") eqn:C.
    + destruct (H2 eq_refl eq_refl) as [Ht [Hr _]]. rewrite Ht, Hr. split.
      * left. reflexivity.
      * reflexivity.
    + destruct (H3 eq_refl eq_refl) as [Ht [Hr _]]. rewrite Ht, Hr. split.
      * right. reflexivity.
      * intro HF. inversion HF as [| ? ? _ HF']. inversion HF' as [| ? ? Hs _].
        exact Hs.
Qed.

(** The forward sequence: the group check, then the steps if it passed. *)
Lemma SetupAgentBody_run (w : W) :
  let g := setInstallerAgentGroup cmd in
  match result h g w with
  | Some e =>
      trace h (SetupAgentBody cmd) w = trace h g w /\
      result h (SetupAgentBody cmd) w = Some e
  | None =>
      trace h (SetupAgentBody cmd) w =
        trace h g w ++ trace h setupSteps (final h g w) /\
      result h (SetupAgentBody cmd) w = result h setupSteps (final h g w)
  end.
Proof.
  cbv zeta. rewrite SetupAgentBody_split. rewrite trace_bind, result_bind.
  destruct (result h (setInstallerAgentGroup cmd) w) as [e |].
  - rewrite trace_Ret, result_Ret, app_nil_r. split; reflexivity.
  - split; reflexivity.
Qed.

Lemma SetupAgent_trace (w : W) :
  let w0 := after h (StartSpan "setup_agent") w in
  trace h (SetupAgent cmd) w =
    Ev (StartSpan "setup_agent") (fst (h (StartSpan "setup_agent") w))
    :: trace h (SetupAgentBody cmd) w0
    ++ trace h (SetupAgentDeferred (result h (SetupAgentBody cmd) w0))
         (final h (SetupAgentBody cmd) w0).
Proof.
  unfold SetupAgent, tracer_StartSpan. rewrite trace_bind, trace_Do, trace_Ret.
  rewrite final_Do, final_Ret, trace_bind. reflexivity.
Qed.

Lemma SetupAgent_result (w : W) :
  let w0 := after h (StartSpan "setup_agent") w in
  result h (SetupAgent cmd) w =
    result h (SetupAgentDeferred (result h (SetupAgentBody cmd) w0))
      (final h (SetupAgentBody cmd) w0).
Proof.
  unfold SetupAgent, tracer_StartSpan. rewrite result_bind, final_Do, final_Ret.
  rewrite result_bind. reflexivity.
Qed.

(** The deferred function when the body succeeded. *)
Lemma SetupAgentDeferred_nil (w : W) :
  result h (SetupAgentDeferred None) w = None /\
  calls (trace h (SetupAgentDeferred None) w) = [FinishSpan "setup_agent" None].
Proof.
  unfold SetupAgentDeferred, span_Finish. run_steps. split; reflexivity.
Qed.

(** The deferred function when the body failed with [e]: the named result
    is overwritten by what RemoveAgent returns. *)
Lemma SetupAgentDeferred_err (e : error) (w : W) :
  let w1 :=
    after h (LogErrorf (Sprintf "Failed to setup agent: %s, reverting" [Error e])) w in
  let r := result h RemoveAgent w1 in
  result h (SetupAgentDeferred (Some e)) w = r /\
  calls (trace h (SetupAgentDeferred (Some e)) w) =
    LogErrorf (Sprintf "Failed to setup agent: %s, reverting" [Error e])
    :: calls (trace h RemoveAgent w1)
    ++ match r with
       | Some e' => [LogWarnf (Sprintf "Failed to revert agent setup: %s" [Error e'])]
       | None => []
       end
    ++ [FinishSpan "setup_agent" r].
Proof.
  unfold SetupAgentDeferred, span_Finish, log_Errorf, log_Warnf.
  with_strategy opaque [RemoveAgent] run_steps.
  destruct (result h RemoveAgent _) as [e' |]; run_steps;
    (split; [reflexivity |]); rewrite !calls_app;
    change (calls []) with (@nil call); rewrite ?app_nil_r, <- ?app_assoc;
    reflexivity.
Qed.

End ServiceRuns.

(* ================================================================== *)
(** ** The unit registry *)

(** C10.  The two registry sequences are isomorphic: each lists one unit
    per subcomponent, without repetition, in the same order (main, trace,
    process, system-probe, security); they have the same length, and at
    every position the experimental name is the stable name with [-exp] in
    front of its [.service] suffix. *)
Theorem registry_isomorphic :
  stableUnits = map (unitName Stable) subcomponents /\
  experimentalUnits = map (unitName Experimental) subcomponents /\
  (forall s : subcomponent, In s subcomponents) /\
  NoDup subcomponents /\
  length stableUnits = length experimentalUnits /\
  NoDup stableUnits /\
  NoDup experimentalUnits /\
  map experimentalName stableUnits = map Some experimentalUnits /\
  (forall s : subcomponent,
     experimentalName (unitName Stable s) = Some (unitName Experimental s)).
Proof.
  repeat split; try reflexivity.
  - intros []; simpl; tauto.
  - repeat constructor; simpl; intuition discriminate.
  - repeat constructor; simpl; intuition discriminate.
  - repeat constructor; simpl; intuition discriminate.
  - intros []; reflexivity.
Qed.

(* ================================================================== *)
(** ** The experiment controller *)

(** C9.  StartAgentExperiment makes exactly one call, [startUnit] on the
    experimental main unit, and StopAgentExperiment makes exactly one call,
    [startUnit] on the stable main unit; each returns the answer of its
    call as it is. *)
Theorem experiment_controller_one_start {W : Type} (h : host W) (w : W) :
  (trace h StartAgentExperiment w =
     [Ev (UnitOp Start agentExp) (result h StartAgentExperiment w)] /\
   unitOps (calls (trace h StartAgentExperiment w)) = [(Start, agentExp)] /\
   result h StartAgentExperiment w = fst (h (UnitOp Start agentExp) w))
  /\
  (trace h StopAgentExperiment w =
     [Ev (UnitOp Start agentUnit) (result h StopAgentExperiment w)] /\
   unitOps (calls (trace h StopAgentExperiment w)) = [(Start, agentUnit)] /\
   result h StopAgentExperiment w = fst (h (UnitOp Start agentUnit) w)).
Proof.
  unfold StartAgentExperiment, StopAgentExperiment, startUnit.
  rewrite !trace_Do, !result_Do, !trace_Ret, !result_Ret.
  repeat split.
Qed.

(* ================================================================== *)
(** ** The precondition check *)

(** C7, amended.  The check first queries the installer's groups.  When the
    query succeeds and its output contains the target group, the check
    returns nil and makes no other call; when the query succeeds and the
    output lacks the group, the check calls the helper exactly once and
    returns the helper's answer as it is; when the query itself fails, the
    check returns the query's error as it is and does not call the helper,
    whatever the output contains. *)
Theorem setInstallerAgentGroup_spec {W : Type} (h : host W) (cmd : string) (w : W) :
  let r := fst (h groupQuery w) in
  let w1 := after h groupQuery w in
  let p := setInstallerAgentGroup cmd in
  (snd r = None -> Contains (fst r) "dd-agent" = true ->
     result h p w = None /\ calls (trace h p w) = [groupQuery])
  /\ (snd r = None -> Contains (fst r) "dd-agent" = false ->
     calls (trace h p w) = [groupQuery; ExecuteHelperCommand cmd] /\
     result h p w = fst (h (ExecuteHelperCommand cmd) w1))
  /\ (forall e, snd r = Some e ->
     result h p w = Some e /\ calls (trace h p w) = [groupQuery]).
Proof.
  destruct (setInstallerAgentGroup_run h cmd w) as [H1 [H2 H3]].
  cbv zeta in *. repeat split.
  - destruct (H2 H H0) as [_ [Hr _]]. exact Hr.
  - destruct (H2 H H0) as [Ht _]. rewrite Ht. reflexivity.
  - destruct (H3 H H0) as [Ht _]. rewrite Ht. reflexivity.
  - destruct (H3 H H0) as [_ [Hr _]]. exact Hr.
  - destruct (H1 e H) as [_ [Hr _]]. exact Hr.
  - destruct (H1 e H) as [Ht _]. rewrite Ht. reflexivity.
Qed.

(** The three cases of the check, on three scripted hosts. *)
Lemma setInstallerAgentGroup_spec_witness :
  (result (scripted "dd-installer dd-agent" neverFails)
     (setInstallerAgentGroup helperCommand) tt = None /\
   calls (trace (scripted "dd-installer dd-agent" neverFails)
     (setInstallerAgentGroup helperCommand) tt) = [groupQuery])
  /\ (calls (trace (scripted "dd-installer" helperRefused)
        (setInstallerAgentGroup helperCommand) tt)
      = [groupQuery; ExecuteHelperCommand helperCommand] /\
      result (scripted "dd-installer" helperRefused)
        (setInstallerAgentGroup helperCommand) tt
      = Some (MkError "permission denied"))
  /\ (result (scripted "dd-installer dd-agent" idFails)
        (setInstallerAgentGroup helperCommand) tt
      = Some (MkError "exit status 1") /\
      calls (trace (scripted "dd-installer dd-agent" idFails)
        (setInstallerAgentGroup helperCommand) tt) = [groupQuery]).
Proof.
  split; [| split].
  - apply (setInstallerAgentGroup_spec
             (scripted "dd-installer dd-agent" neverFails) helperCommand tt);
      reflexivity.
  - apply (setInstallerAgentGroup_spec
             (scripted "dd-installer" helperRefused) helperCommand tt);
      reflexivity.
  - apply (setInstallerAgentGroup_spec
             (scripted "dd-installer dd-agent" idFails) helperCommand tt);
      reflexivity.
Defined.

(** C7 as stated fails when the query itself fails: [id] can print the
    target group and still exit with an error, and then the check returns
    that error rather than nil; and when the failed query printed nothing of
    the group, the helper is not called at all. *)
Lemma setInstallerAgentGroup_failed_query :
  (Contains (fst (fst (scripted "dd-installer dd-agent" idFails groupQuery tt)))
     "dd-agent" = true /\
   result (scripted "dd-installer dd-agent" idFails)
     (setInstallerAgentGroup helperCommand) tt <> None)
  /\
  (Contains (fst (fst (scripted "dd-installer" idFails groupQuery tt)))
     "dd-agent" = false /\
   ~ In (ExecuteHelperCommand helperCommand)
       (calls (trace (scripted "dd-installer" idFails)
          (setInstallerAgentGroup helperCommand) tt))).
Proof.
  vm_compute. repeat split; try discriminate.
  intros [H | []]. discriminate H.
Qed.

(* ================================================================== *)
(** ** Teardown *)

Lemma append_empty_r (s : string) : (s ++ "")%string = s.
Proof. induction s as [| c s IH]; simpl; [| rewrite IH]; reflexivity. Qed.

Lemma removeCalls_split :
  removeCalls = onUnits Stop experimentalUnits ++ removeCallsAfterExperimentalStops.
Proof. reflexivity. Qed.

(** A unit operation found in a list of calls bracketed by two telemetry
    calls lies in the bracketed part. *)
Lemma nth_error_bracketed (c0 c1 : call) (cs : list call) (i : nat) (c : call) :
  isTelemetry c0 = true -> isTelemetry c1 = true -> isTelemetry c = false ->
  nth_error (c0 :: cs ++ [c1]) i = Some c ->
  exists i', i = S i' /\ nth_error cs i' = Some c.
Proof.
  intros H0 H1 Hc Hi. destruct i as [| i'].
  - simpl in Hi. congruence.
  - exists i'. split; [reflexivity |]. simpl in Hi.
    destruct (le_lt_dec (length cs) i') as [Hle | Hlt].
    + rewrite nth_error_app2 in Hi by exact Hle.
      destruct (i' - length cs) as [| k]; simpl in Hi.
      * congruence.
      * destruct k; discriminate Hi.
    + rewrite nth_error_app1 in Hi by exact Hlt. exact Hi.
Qed.

(** In [removeCalls] every stop of an experimental unit is among the first
    calls, before any stop of a stable unit. *)
Lemma removeCalls_stop_order (i j : nat) (a b : call) :
  nth_error removeCalls i = Some a -> isStopOf stableUnits a = true ->
  nth_error removeCalls j = Some b -> isStopOf experimentalUnits b = true ->
  j < i /\ j < length (onUnits Stop experimentalUnits) <= i.
Proof.
  rewrite removeCalls_split.
  apply (split_order (isStopOf experimentalUnits) (isStopOf stableUnits)
           (onUnits Stop experimentalUnits) removeCallsAfterExperimentalStops);
    vm_compute; reflexivity.
Qed.

(** The calls of RemoveAgent's body are an initial part of [removeCalls]. *)
Lemma RemoveAgentBody_prefix {W : Type} (h : host W) (w : W) :
  exists rest, removeCalls = calls (trace h RemoveAgentBody w) ++ rest.
Proof.
  destruct (planRun_prefix _ _ _ (RemoveAgentBody_run h w)) as [rest Hrest].
  exists rest. rewrite <- Hrest. symmetry. apply map_fst_removePlan.
Qed.

(** C5.  In every run of RemoveAgent, whatever calls fail: a [stopUnit] on
    a stable unit comes after every [stopUnit] on an experimental unit, and
    by then every experimental unit has been passed to [stopUnit]. *)
Theorem RemoveAgent_stops_experimental_first
  {W : Type} (h : host W) (w : W) (i : nat) (u : string) :
  nth_error (calls (trace h RemoveAgent w)) i = Some (UnitOp Stop u) ->
  In u stableUnits ->
  (forall j v,
     nth_error (calls (trace h RemoveAgent w)) j = Some (UnitOp Stop v) ->
     In v experimentalUnits -> j < i)
  /\
  (forall v, In v experimentalUnits ->
     exists j, j < i /\
       nth_error (calls (trace h RemoveAgent w)) j = Some (UnitOp Stop v)).
Proof.
  intros Hi Hu.
  destruct (RemoveAgent_run h w) as [_ [_ Hc]]. cbv zeta in Hc.
  set (w0 := after h (StartSpan "remove_agent_units") w) in *.
  destruct (RemoveAgentBody_prefix h w0) as [rest Hrest].
  set (cs := calls (trace h RemoveAgentBody w0)) in *.
  rewrite Hc in *. clear Hc.
  apply nth_error_bracketed in Hi; [| reflexivity ..].
  destruct Hi as [i' [-> Hi]].
  assert (Hilen : i' < length cs).
  { apply nth_error_Some. rewrite Hi. discriminate. }
  assert (Hi' : nth_error removeCalls i' = Some (UnitOp Stop u)).
  { rewrite Hrest, nth_error_app1 by exact Hilen. exact Hi. }
  assert (Qu : isStopOf stableUnits (UnitOp Stop u) = true).
  { apply isUnitOf_In. exact Hu. }
  split.
  - intros j v Hj Hv.
    apply nth_error_bracketed in Hj; [| reflexivity ..].
    destruct Hj as [j' [-> Hj]].
    assert (Hj' : nth_error removeCalls j' = Some (UnitOp Stop v)).
    { rewrite Hrest, nth_error_app1; [exact Hj |].
      apply nth_error_Some. rewrite Hj. discriminate. }
    assert (Pv : isStopOf experimentalUnits (UnitOp Stop v) = true).
    { apply isUnitOf_In. exact Hv. }
    destruct (removeCalls_stop_order i' j' _ _ Hi' Qu Hj' Pv) as [Hlt _].
    lia.
  - intros v Hv.
    assert (Hin : In (UnitOp Stop v) (onUnits Stop experimentalUnits)).
    { apply in_map. exact Hv. }
    apply In_nth_error in Hin. destruct Hin as [j' Hj].
    assert (Hjlen : j' < length (onUnits Stop experimentalUnits)).
    { apply nth_error_Some. rewrite Hj. discriminate. }
    assert (Hj' : nth_error removeCalls j' = Some (UnitOp Stop v)).
    { rewrite removeCalls_split, nth_error_app1 by exact Hjlen. exact Hj. }
    assert (Pv : isStopOf experimentalUnits (UnitOp Stop v) = true).
    { apply isUnitOf_In. exact Hv. }
    destruct (removeCalls_stop_order i' j' _ _ Hi' Qu Hj' Pv) as [Hlt _].
    exists (S j'). split; [lia |].
    simpl. rewrite nth_error_app1 by lia.
    rewrite Hrest, nth_error_app1 in Hj' by lia. exact Hj'.
Qed.

(** When nothing fails the stable main unit is stopped sixth, after the
    five experimental units. *)
Lemma RemoveAgent_stops_experimental_first_witness :
  (forall j v,
     nth_error (calls (trace (scripted "" neverFails) RemoveAgent tt)) j
       = Some (UnitOp Stop v) ->
     In v experimentalUnits -> j < 6)
  /\
  (forall v, In v experimentalUnits ->
     exists j, j < 6 /\
       nth_error (calls (trace (scripted "" neverFails) RemoveAgent tt)) j
         = Some (UnitOp Stop v)).
Proof.
  apply (RemoveAgent_stops_experimental_first
           (scripted "" neverFails) tt 6 agentUnit).
  - reflexivity.
  - simpl. tauto.
Defined.

Lemma removeCalls_not_telemetry :
  forallb (fun c => negb (isTelemetry c)) removeCalls = true.
Proof. vm_compute. reflexivity. Qed.

Lemma removeCalls_kinds (c : call) : In c removeCalls -> isRemoveStep c = true.
Proof.
  assert (H : forallb isRemoveStep removeCalls = true) by (vm_compute; reflexivity).
  rewrite forallb_forall in H. apply H.
Qed.

Lemma removePlan_wrap (c : call) (wrap : error -> error) :
  In (c, wrap) removePlan -> In c removeCalls /\ wrap = removeWrap c.
Proof.
  unfold removePlan. intro H. apply in_map_iff in H.
  destruct H as [c' [Heq Hin]]. injection Heq as -> <-. split; [exact Hin | reflexivity].
Qed.

Lemma Sprintf_unit_error (u m : string) :
  Sprintf "Failed to stop %s: %s" [u; m] = ("Failed to stop " ++ u ++ ": " ++ m)%string /\
  Sprintf "Failed to disable %s: %s" [u; m] = ("Failed to disable " ++ u ++ ": " ++ m)%string /\
  Sprintf "Failed to remove %s: %s" [u; m] = ("Failed to remove " ++ u ++ ": " ++ m)%string /\
  Sprintf "Failed to remove agent symlink: %s" [m] = ("Failed to remove agent symlink: " ++ m)%string.
Proof.
  repeat split; simpl; rewrite append_empty_r; reflexivity.
Qed.

(** C6.  RemoveAgent is fail-fast.  Either every call of its sequence is
    made and succeeds, the last one removing the install-info marker, and
    nil is returned; or the calls made are the sequence up to its first
    failing call and nothing after it, and the returned error names the
    action attempted and the unit it was attempted on (the action alone for
    the symlink) in front of the failure's message. *)
Theorem RemoveAgent_fail_fast {W : Type} (h : host W) (w : W) :
  let t := hostEvents (trace h RemoveAgent w) in
  let r := result h RemoveAgent w in
  (r = None /\ calls t = removeCalls /\ Forall succeeded t /\
   last (calls t) SystemdReload = RmInstallInfo)
  \/
  (exists pre c post tpre ev e,
     removeCalls = pre ++ c :: post /\
     t = tpre ++ [ev] /\ calls tpre = pre /\ Forall succeeded tpre /\
     ev_call ev = c /\ ev_err ev = Some e /\
     ((exists u, c = UnitOp Stop u /\
         r = Some (MkError ("Failed to stop " ++ u ++ ": " ++ Error e)))
      \/ (exists u, c = UnitOp Disable u /\
         r = Some (MkError ("Failed to disable " ++ u ++ ": " ++ Error e)))
      \/ (exists u, c = UnitOp Remove u /\
         r = Some (MkError ("Failed to remove " ++ u ++ ": " ++ Error e)))
      \/ (c = RmAgentSymlink /\
         r = Some (MkError ("Failed to remove agent symlink: " ++ Error e))))).
Proof.
  cbv zeta.
  destruct (RemoveAgent_run h w) as [Hr [Ht _]]. cbv zeta in Hr, Ht.
  rewrite Hr, Ht. clear Hr Ht.
  set (w0 := after h (StartSpan "remove_agent_units") w).
  destruct (RemoveAgentBody_prefix h w0) as [rest Hrest].
  assert (Hhost : hostEvents (trace h RemoveAgentBody w0) = trace h RemoveAgentBody w0).
  { apply hostEvents_all. apply (forallb_prefix _ _ rest).
    rewrite <- Hrest. apply removeCalls_not_telemetry. }
  rewrite Hhost. clear Hhost Hrest rest.
  pose proof (RemoveAgentBody_run h w0) as Hrun.
  inversion Hrun as [t Hc Hok Ht Hr | pre c wrap post tpre ev e Hp Hc Hok Hev He Ht Hr].
  - left. rewrite Hc, map_fst_removePlan.
    split; [reflexivity | split; [reflexivity | split; [exact Hok |]]].
    vm_compute. reflexivity.
  - right.
    assert (Hin : In (c, wrap) removePlan).
    { rewrite Hp. apply in_or_app. right. left. reflexivity. }
    apply removePlan_wrap in Hin. destruct Hin as [Hin Hw].
    exists (map fst pre), c, (map fst post), tpre, ev, e.
    split.
    { rewrite <- map_fst_removePlan, Hp, map_app. reflexivity. }
    repeat (split; [assumption || reflexivity |]).
    pose proof (removeCalls_kinds c Hin) as Hk.
    pose proof (Sprintf_unit_error) as HS.
    rewrite Hw.
    destruct c as [| | a u | | | | | | | | |]; try discriminate Hk.
    + destruct (HS u (Error e)) as [H1 [H2 [H3 _]]].
      destruct a; try discriminate Hk.
      * left. exists u. split; [reflexivity |].
        unfold removeWrap, Errorf. rewrite H1. reflexivity.
      * right. left. exists u. split; [reflexivity |].
        unfold removeWrap, Errorf. rewrite H2. reflexivity.
      * right. right. left. exists u. split; [reflexivity |].
        unfold removeWrap, Errorf. rewrite H3. reflexivity.
    + destruct (HS EmptyString (Error e)) as [_ [_ [_ H4]]].
      right. right. right. split; [reflexivity |].
      unfold removeWrap, Errorf. rewrite H4. reflexivity.
    + exfalso. destruct ev as [c' r']. simpl in Hev. subst c'.
      unfold ev_err in He. simpl in He. discriminate He.
Qed.

(* ================================================================== *)
(** ** Setup *)

Lemma hostOps_calls (t : list event) :
  hostOps t = filter (fun c => negb (isTelemetry c)) (calls t).
Proof.
  unfold hostOps, hostEvents, calls.
  induction t as [| ev t IH]; simpl.
  - reflexivity.
  - destruct (isTelemetry (ev_call ev)); simpl; rewrite IH; reflexivity.
Qed.

Lemma In_unitOps (a : action) (u : string) (cs : list call) :
  In (a, u) (unitOps cs) <-> In (UnitOp a u) cs.
Proof.
  induction cs as [| c cs IH]; simpl.
  - tauto.
  - destruct c; simpl; rewrite IH; split;
      try (intros [H | H]; [discriminate H | tauto]); try tauto.
    + intros [H | H]; [left; congruence | tauto].
    + intros [H | H]; [left; congruence | tauto].
Qed.

Lemma setupCalls_not_telemetry :
  filter (fun c => negb (isTelemetry c)) setupCalls = setupCalls.
Proof. vm_compute. reflexivity. Qed.

Lemma setupCalls_only_load_experimental (a : action) (u : string) :
  In (UnitOp a u) setupCalls -> In u experimentalUnits -> a = Load.
Proof.
  assert (H : forallb (onlyLoads experimentalUnits) setupCalls = true)
    by (vm_compute; reflexivity).
  rewrite forallb_forall in H. intros Hin Hu. apply H in Hin.
  apply isUnitOf_In in Hu.
  destruct a; unfold onlyLoads in Hin; try reflexivity;
    rewrite Hu in Hin; discriminate Hin.
Qed.

(** The calls of the steps after the group check are an initial part of
    [setupCalls]. *)
Lemma setupSteps_prefix {W : Type} (h : host W) (w : W) :
  exists rest, setupCalls = calls (trace h setupSteps w) ++ rest.
Proof.
  destruct (planRun_prefix _ _ _ (setupSteps_run h w)) as [rest Hrest].
  exists rest. rewrite <- Hrest. symmetry. apply map_fst_setupPlan.
Qed.

(** When every call of the steps succeeds, all of them are made. *)
Lemma setupSteps_all_succeeded {W : Type} (h : host W) (w : W) :
  Forall succeeded (trace h setupSteps w) ->
  result h setupSteps w = None /\ calls (trace h setupSteps w) = setupCalls.
Proof.
  intro HF. pose proof (setupSteps_run h w) as Hrun.
  inversion Hrun as [t Hc Hok Ht Hr | pre c wrap post tpre ev e Hp Hc Hok Hev He Ht Hr].
  - split; [reflexivity | rewrite Hc; apply map_fst_setupPlan].
  - exfalso. rewrite <- Ht in HF. apply Forall_app in HF. destruct HF as [_ HF].
    inversion HF as [| ? ? Hs _]. unfold succeeded in Hs. congruence.
Qed.

(** Every unit operation of RemoveAgent is a stop, a disable or a remove. *)
Lemma RemoveAgent_unit_actions {W : Type} (h : host W) (w : W)
  (a : action) (u : string) :
  In (UnitOp a u) (calls (trace h RemoveAgent w)) ->
  a = Stop \/ a = Disable \/ a = Remove.
Proof.
  destruct (RemoveAgent_run h w) as [_ [_ Hc]]. cbv zeta in Hc. rewrite Hc.
  set (w0 := after h (StartSpan "remove_agent_units") w).
  destruct (RemoveAgentBody_prefix h w0) as [rest Hrest].
  intros [H | H]; [discriminate H |].
  apply in_app_or in H. destruct H as [H | [H | []]]; [| discriminate H].
  assert (Hin : In (UnitOp a u) removeCalls).
  { rewrite Hrest. apply in_or_app. left. exact H. }
  apply removeCalls_kinds in Hin.
  destruct a; simpl in Hin; try discriminate Hin; tauto.
Qed.

(** C3.  When every call of a run of SetupAgent succeeds, SetupAgent
    returns nil and its operations on the host are exactly: the group check
    (the query, and the helper if the group was missing), then [loadUnit] on
    every stable unit and on every experimental unit in registry order, one
    [systemdReload], [enableUnit] and then [startUnit] on every stable unit
    in registry order, [createAgentSymlink], and [WriteInstallInfo] with the
    fixed package-type and update-method tags. *)
Theorem SetupAgent_success_sequence
  {W : Type} (h : host W) (cmd : string) (w : W) :
  Forall succeeded (trace h (SetupAgent cmd) w) ->
  let groupCheck := hostOps (trace h (setInstallerAgentGroup cmd)
                          (after h (StartSpan "setup_agent") w)) in
  result h (SetupAgent cmd) w = None /\
  (groupCheck = [groupQuery] \/ groupCheck = [groupQuery; ExecuteHelperCommand cmd]) /\
  hostOps (trace h (SetupAgent cmd) w) =
    groupCheck
    ++ map (UnitOp Load) stableUnits
    ++ map (UnitOp Load) experimentalUnits
    ++ [SystemdReload]
    ++ map (UnitOp Enable) stableUnits
    ++ map (UnitOp Start) stableUnits
    ++ [CreateAgentSymlink; WriteInstallInfo "installer_package" "manual_update"].
Proof.
  intros HF. cbv zeta.
  rewrite SetupAgent_trace in HF. cbv zeta in HF.
  rewrite SetupAgent_result, SetupAgent_trace. cbv zeta.
  set (w0 := after h (StartSpan "setup_agent") w) in *.
  inversion HF as [| ? ? _ HF']. subst. clear HF.
  apply Forall_app in HF'. destruct HF' as [HFb _].
  pose proof (SetupAgentBody_run h cmd w0) as HB. cbv zeta in HB.
  destruct (setInstallerAgentGroup_calls h cmd w0) as [Hg Hgr]. cbv zeta in Hg, Hgr.
  destruct (result h (setInstallerAgentGroup cmd) w0) as [e |] eqn:Eg.
  - exfalso. destruct HB as [HBt _]. rewrite HBt in HFb.
    specialize (Hgr HFb). discriminate Hgr.
  - destruct HB as [HBt HBr]. rewrite HBt in HFb.
    apply Forall_app in HFb. destruct HFb as [_ HFs].
    destruct (setupSteps_all_succeeded h _ HFs) as [Hsr Hsc].
    rewrite HBr, Hsr, HBt.
    destruct (SetupAgentDeferred_nil h
                (final h (SetupAgentBody cmd) w0)) as [Hdr Hdc].
    split; [exact Hdr |]. split.
    + rewrite hostOps_calls.
      destruct Hg as [Hg | Hg]; rewrite Hg; [left | right]; reflexivity.
    + rewrite !hostOps_calls.
      change (calls (?a :: ?t)) with (ev_call a :: calls t).
      rewrite !calls_app, Hdc, Hsc.
      cbn [ev_call filter isTelemetry negb].
      rewrite !filter_app, setupCalls_not_telemetry.
      cbn [filter isTelemetry negb]. rewrite app_nil_r. reflexivity.
Qed.

(** On a host where the installer is already in the group and nothing
    fails, SetupAgent makes the whole sequence. *)
Lemma SetupAgent_success_sequence_witness :
  result (scripted "dd-installer dd-agent" neverFails)
    (SetupAgent helperCommand) tt = None /\
  hostOps (trace (scripted "dd-installer dd-agent" neverFails)
             (SetupAgent helperCommand) tt) =
    [groupQuery]
    ++ map (UnitOp Load) stableUnits
    ++ map (UnitOp Load) experimentalUnits
    ++ [SystemdReload]
    ++ map (UnitOp Enable) stableUnits
    ++ map (UnitOp Start) stableUnits
    ++ [CreateAgentSymlink; WriteInstallInfo "installer_package" "manual_update"].
Proof.
  assert (HF : Forall succeeded
                 (trace (scripted "dd-installer dd-agent" neverFails)
                    (SetupAgent helperCommand) tt)).
  { vm_compute. repeat constructor. }
  destruct (SetupAgent_success_sequence
              (scripted "dd-installer dd-agent" neverFails) helperCommand tt HF)
    as [Hr [_ Hops]].
  split; [exact Hr | exact Hops].
Defined.

(** C8.  In every run of SetupAgent's forward sequence, a unit operation on
    an experimental unit is a [loadUnit]: no experimental unit is enabled
    or started. *)
Theorem SetupAgent_forward_only_loads_experimental
  {W : Type} (h : host W) (cmd : string) (w : W) (a : action) (u : string) :
  In (UnitOp a u) (calls (trace h (SetupAgentBody cmd) w)) ->
  In u experimentalUnits ->
  a = Load /\ a <> Enable /\ a <> Start.
Proof.
  intros Hin Hu.
  assert (Ha : a = Load).
  { pose proof (SetupAgentBody_run h cmd w) as HB. cbv zeta in HB.
    destruct (setInstallerAgentGroup_calls h cmd w) as [Hg _]. cbv zeta in Hg.
    assert (Hng : ~ In (UnitOp a u) (calls (trace h (setInstallerAgentGroup cmd) w))).
    { destruct Hg as [Hg | Hg]; rewrite Hg; simpl;
        intros H; repeat (destruct H as [H | H]; try discriminate H); exact H. }
    destruct (result h (setInstallerAgentGroup cmd) w) as [e |].
    - destruct HB as [HBt _]. rewrite HBt in Hin. contradiction.
    - destruct HB as [HBt _]. rewrite HBt, calls_app in Hin.
      apply in_app_or in Hin. destruct Hin as [Hin | Hin]; [contradiction |].
      destruct (setupSteps_prefix h (final h (setInstallerAgentGroup cmd) w))
        as [rest Hrest].
      apply (setupCalls_only_load_experimental a u); [| exact Hu].
      rewrite Hrest. apply in_or_app. left. exact Hin. }
  subst a. repeat split; discriminate.
Qed.

(** The forward sequence does load the experimental main unit. *)
Lemma SetupAgent_forward_only_loads_experimental_witness :
  In (UnitOp Load agentExp)
     (calls (trace (scripted "dd-installer dd-agent" neverFails)
               (SetupAgentBody helperCommand) tt)) /\
  In agentExp experimentalUnits /\
  (Load = Load /\ Load <> Enable /\ Load <> Start).
Proof.
  assert (H1 : In (UnitOp Load agentExp)
                 (calls (trace (scripted "dd-installer dd-agent" neverFails)
                           (SetupAgentBody helperCommand) tt))).
  { vm_compute. tauto. }
  assert (H2 : In agentExp experimentalUnits) by (simpl; tauto).
  split; [exact H1 | split; [exact H2 |]].
  exact (SetupAgent_forward_only_loads_experimental
           (scripted "dd-installer dd-agent" neverFails) helperCommand tt
           Load agentExp H1 H2).
Defined.

(* ================================================================== *)
(** ** Setup failures and the rollback *)

(** When the forward sequence fails with [e], SetupAgent logs it, runs
    RemoveAgent and returns what RemoveAgent returns. *)
Lemma SetupAgent_failed_run {W : Type} (h : host W) (cmd : string) (w : W) (e : error) :
  let w0 := after h (StartSpan "setup_agent") w in
  let w2 := after h
              (LogErrorf (Sprintf "Failed to setup agent: %s, reverting" [Error e]))
              (final h (SetupAgentBody cmd) w0) in
  result h (SetupAgentBody cmd) w0 = Some e ->
  result h (SetupAgent cmd) w = result h RemoveAgent w2 /\
  calls (trace h (SetupAgent cmd) w) =
    StartSpan "setup_agent" :: calls (trace h (SetupAgentBody cmd) w0)
    ++ LogErrorf (Sprintf "Failed to setup agent: %s, reverting" [Error e])
    :: calls (trace h RemoveAgent w2)
    ++ match result h RemoveAgent w2 with
       | Some e' => [LogWarnf (Sprintf "Failed to revert agent setup: %s" [Error e'])]
       | None => []
       end
    ++ [FinishSpan "setup_agent" (result h RemoveAgent w2)].
Proof.
  cbv zeta. intro Hb.
  rewrite SetupAgent_result, SetupAgent_trace. cbv zeta. rewrite Hb.
  destruct (SetupAgentDeferred_err h e
              (final h (SetupAgentBody cmd) (after h (StartSpan "setup_agent") w)))
    as [Hr Hc].
  cbv zeta in Hr, Hc. split; [exact Hr |].
  change (calls (?a :: ?t)) with (ev_call a :: calls t).
  rewrite calls_app, Hc. reflexivity.
Qed.

(** RemoveAgent always gets as far as its first call: after starting its
    span it calls [stopUnit] on the first experimental unit. *)
Lemma RemoveAgent_first_call {W : Type} (h : host W) (w : W) :
  exists t,
    calls (trace h RemoveAgent w)
    = StartSpan "remove_agent_units" :: UnitOp Stop agentExp :: t.
Proof.
  destruct (RemoveAgent_run h w) as [_ [_ Hc]]. cbv zeta in Hc.
  set (w0 := after h (StartSpan "remove_agent_units") w) in *.
  assert (Hb : trace h RemoveAgentBody w0 = trace h (execPlan removePlan) w0).
  { unfold trace. rewrite (run_peq h _ _ RemoveAgentBody_plan). reflexivity. }
  change removePlan
    with ((UnitOp Stop agentExp, removeWrap (UnitOp Stop agentExp)) :: tl removePlan)
    in Hb.
  cbn [execPlan] in Hb. rewrite trace_Do in Hb.
  rewrite Hc, Hb. eexists. reflexivity.
Qed.

(** C4, amended.  When the group query succeeds with an output that lacks
    the target group and the helper then fails, the forward sequence of
    SetupAgent ends there: it has made the query and the helper call and no
    unit operation, and no [loadUnit], [enableUnit] or [startUnit] is made
    in the whole run.  The deferred rollback still runs RemoveAgent, so the
    host operations of the run are the query, the helper call and then
    those of RemoveAgent: unit operations are made before SetupAgent
    returns, the first of them [stopUnit] on the first experimental unit,
    and each of them is a stop, a disable or a remove. *)
Theorem SetupAgent_helper_failure
  {W : Type} (h : host W) (cmd : string) (w : W) (out : string) (e : error) :
  let w0 := after h (StartSpan "setup_agent") w in
  let w1 := after h (ExecuteHelperCommand cmd) (after h groupQuery w0) in
  let w2 := after h
              (LogErrorf (Sprintf "Failed to setup agent: %s, reverting" [Error e]))
              w1 in
  fst (h groupQuery w0) = (out, None) ->
  Contains out "dd-agent" = false ->
  fst (h (ExecuteHelperCommand cmd) (after h groupQuery w0)) = Some e ->
  calls (trace h (SetupAgentBody cmd) w0) = [groupQuery; ExecuteHelperCommand cmd] /\
  unitOps (calls (trace h (SetupAgentBody cmd) w0)) = [] /\
  hostOps (trace h (SetupAgent cmd) w) =
    [groupQuery; ExecuteHelperCommand cmd] ++ hostOps (trace h RemoveAgent w2) /\
  (forall a u, In (a, u) (unitOps (calls (trace h (SetupAgent cmd) w))) ->
     a = Stop \/ a = Disable \/ a = Remove) /\
  (exists rest,
     unitOps (calls (trace h (SetupAgent cmd) w)) = (Stop, agentExp) :: rest).
Proof.
  cbv zeta. intros Hq Hout Hhelp.
  set (w0 := after h (StartSpan "setup_agent") w) in *.
  destruct (setInstallerAgentGroup_run h cmd w0) as [_ [_ H3]]. cbv zeta in H3.
  rewrite Hq in H3. cbn [fst snd] in H3.
  destruct (H3 eq_refl Hout) as [Hgt [Hgr Hgf]]. clear H3.
  rewrite Hhelp in Hgr.
  pose proof (SetupAgentBody_run h cmd w0) as HB. cbv zeta in HB.
  rewrite Hgr in HB. destruct HB as [HBt HBr].
  assert (HBf : final h (SetupAgentBody cmd) w0 =
                after h (ExecuteHelperCommand cmd) (after h groupQuery w0)).
  { rewrite SetupAgentBody_split, final_bind, Hgr, final_Ret. exact Hgf. }
  assert (Hbc : calls (trace h (SetupAgentBody cmd) w0)
                = [groupQuery; ExecuteHelperCommand cmd]).
  { rewrite HBt, Hgt. reflexivity. }
  destruct (SetupAgent_failed_run h cmd w e HBr) as [_ Hc]. cbv zeta in Hc.
  fold w0 in Hc. rewrite HBf, Hbc in Hc.
  split; [exact Hbc |]. split; [rewrite Hbc; reflexivity |]. split; [| split].
  - rewrite !hostOps_calls, Hc.
    cbn [app filter isTelemetry negb].
    rewrite !filter_app.
    destruct (result h RemoveAgent _); cbn [filter isTelemetry negb];
      rewrite ?app_nil_r; reflexivity.
  - intros a u Hin. apply In_unitOps in Hin. rewrite Hc in Hin.
    cbn [app] in Hin.
    destruct Hin as [Hin | [Hin | [Hin | [Hin | Hin]]]]; try discriminate Hin.
    apply in_app_or in Hin. destruct Hin as [Hin | Hin].
    + exact (RemoveAgent_unit_actions h _ a u Hin).
    + apply in_app_or in Hin. destruct Hin as [Hin | [Hin | []]];
        [| discriminate Hin].
      destruct (result h RemoveAgent _); simpl in Hin;
        [destruct Hin as [Hin | []]; discriminate Hin | contradiction].
  - rewrite Hc.
    destruct (RemoveAgent_first_call h
                (after h (LogErrorf (Sprintf "Failed to setup agent: %s, reverting"
                                       [Error e]))
                   (after h (ExecuteHelperCommand cmd) (after h groupQuery w0))))
      as [t Ht].
    rewrite Ht. cbn [app unitOps groupQuery]. eexists. reflexivity.
Qed.

(** A host whose installer lacks the group and whose helper is refused. *)
Lemma SetupAgent_helper_failure_witness :
  calls (trace (scripted "dd-installer" helperRefused)
           (SetupAgentBody helperCommand) tt)
    = [groupQuery; ExecuteHelperCommand helperCommand] /\
  unitOps (calls (trace (scripted "dd-installer" helperRefused)
                    (SetupAgentBody helperCommand) tt)) = [] /\
  hostOps (trace (scripted "dd-installer" helperRefused)
             (SetupAgent helperCommand) tt) =
    [groupQuery; ExecuteHelperCommand helperCommand]
    ++ hostOps (trace (scripted "dd-installer" helperRefused) RemoveAgent tt) /\
  (forall a u,
     In (a, u) (unitOps (calls (trace (scripted "dd-installer" helperRefused)
                                  (SetupAgent helperCommand) tt))) ->
     a = Stop \/ a = Disable \/ a = Remove) /\
  (exists rest,
     unitOps (calls (trace (scripted "dd-installer" helperRefused)
                       (SetupAgent helperCommand) tt))
     = (Stop, agentExp) :: rest).
Proof.
  apply (SetupAgent_helper_failure (scripted "dd-installer" helperRefused)
           helperCommand tt "dd-installer" (MkError "permission denied"));
    reflexivity.
Defined.

(** C4 as stated fails: with the group missing and the helper refused,
    SetupAgent does not return with zero unit operations.  The deferred
    rollback stops, disables and removes all ten units first. *)
Lemma SetupAgent_helper_failure_touches_units :
  Contains (fst (fst (scripted "dd-installer" helperRefused groupQuery tt)))
    "dd-agent" = false /\
  fst (scripted "dd-installer" helperRefused
         (ExecuteHelperCommand helperCommand) tt)
    = Some (MkError "permission denied") /\
  In (Stop, agentExp)
     (unitOps (calls (trace (scripted "dd-installer" helperRefused)
                        (SetupAgent helperCommand) tt))) /\
  length (unitOps (calls (trace (scripted "dd-installer" helperRefused)
                            (SetupAgent helperCommand) tt))) = 30.
Proof.
  vm_compute. repeat split. tauto.
Qed.

(** C2.  If the forward sequence of SetupAgent fails and the RemoveAgent
    call made by the deferred function returns nil, SetupAgent returns nil
    to its caller. *)
Theorem SetupAgent_nil_after_clean_rollback
  {W : Type} (h : host W) (cmd : string) (w : W) (e : error) :
  let w0 := after h (StartSpan "setup_agent") w in
  let w2 := after h
              (LogErrorf (Sprintf "Failed to setup agent: %s, reverting" [Error e]))
              (final h (SetupAgentBody cmd) w0) in
  result h (SetupAgentBody cmd) w0 = Some e ->
  result h RemoveAgent w2 = None ->
  result h (SetupAgent cmd) w = None.
Proof.
  cbv zeta. intros Hb Hr.
  destruct (SetupAgent_failed_run h cmd w e Hb) as [Hres _]. cbv zeta in Hres.
  rewrite Hres. exact Hr.
Qed.

(** Enabling the third stable unit fails, the rollback is clean, and the
    caller is told nothing went wrong. *)
Lemma SetupAgent_nil_after_clean_rollback_witness :
  result (scripted "dd-installer dd-agent" enableFails)
    (SetupAgentBody helperCommand) tt = Some (MkError "enable refused") /\
  result (scripted "dd-installer dd-agent" enableFails) RemoveAgent tt = None /\
  result (scripted "dd-installer dd-agent" enableFails)
    (SetupAgent helperCommand) tt = None.
Proof.
  assert (H1 : result (scripted "dd-installer dd-agent" enableFails)
                 (SetupAgentBody helperCommand) tt
               = Some (MkError "enable refused")) by reflexivity.
  assert (H2 : result (scripted "dd-installer dd-agent" enableFails)
                 RemoveAgent tt = None) by reflexivity.
  split; [exact H1 | split; [exact H2 |]].
  exact (SetupAgent_nil_after_clean_rollback
           (scripted "dd-installer dd-agent" enableFails) helperCommand tt
           (MkError "enable refused") H1 H2).
Defined.

(** C1 does not hold of the code.  The deferred function assigns the
    outcome of RemoveAgent to the named result, so the failure of the
    forward sequence is logged and then lost: with a failing rollback the
    caller receives the rollback's error, which is also only logged as a
    warning, and with a clean rollback the caller receives nil. *)
Theorem SetupAgent_loses_setup_error :
  (result (scripted "dd-installer dd-agent" enableAndStopFail)
     (SetupAgentBody helperCommand) tt = Some (MkError "enable refused") /\
   result (scripted "dd-installer dd-agent" enableAndStopFail)
     (SetupAgent helperCommand) tt
     = Some (MkError "Failed to stop datadog-agent-exp.service: stop refused") /\
   In (LogWarnf "Failed to revert agent setup: Failed to stop datadog-agent-exp.service: stop refused")
      (calls (trace (scripted "dd-installer dd-agent" enableAndStopFail)
                (SetupAgent helperCommand) tt)))
  /\
  (result (scripted "dd-installer dd-agent" enableFails)
     (SetupAgentBody helperCommand) tt = Some (MkError "enable refused") /\
   result (scripted "dd-installer dd-agent" enableFails)
     (SetupAgent helperCommand) tt = None).
Proof.
  vm_compute. repeat split. tauto.
Qed.


(* ================================================================== *)
(** ** Substring matching in the group check *)

Lemma HasPrefix_spec (s p : string) :
  HasPrefix s p = true <-> exists b, s = (p ++ b)%string.
Proof.
  revert s. induction p as [| c p IH]; intro s; simpl.
  - split; [intros _; exists s; reflexivity | intros _; destruct s; reflexivity].
  - destruct s as [| d s]; simpl.
    + split; [discriminate | intros [b Hb]; discriminate Hb].
    + rewrite andb_true_iff, Ascii.eqb_eq, IH. split.
      * intros [-> [b ->]]. exists b. reflexivity.
      * intros [b Hb]. injection Hb as -> ->. split; [reflexivity | exists b; reflexivity].
Qed.

Lemma Contains_spec (s sub : string) :
  Contains s sub = true <-> exists a b, s = (a ++ sub ++ b)%string.
Proof.
  induction s as [| c s IH].
  - destruct sub as [| x sub]; simpl.
    + split; [intros _; exists EmptyString, EmptyString; reflexivity | reflexivity].
    + split; [discriminate |].
      intros [a [b Hab]]. destruct a; discriminate Hab.
  - cbn [Contains]. rewrite orb_true_iff, HasPrefix_spec, IH. split.
    + intros [[b Hb] | [a [b Hab]]].
      * exists EmptyString, b. exact Hb.
      * exists (String c a), b. simpl. rewrite Hab. reflexivity.
    + intros [a [b Hab]]. destruct a as [| x a].
      * left. exists b. exact Hab.
      * right. simpl in Hab. injection Hab as _ Hab. exists a, b. exact Hab.
Qed.

(** The group check calls the helper exactly when the query succeeds and
    the text [dd-agent] occurs nowhere in its output; any occurrence, also
    inside a longer group name, passes the check without the helper. *)
Theorem setInstallerAgentGroup_helper_iff
  {W : Type} (h : host W) (cmd : string) (w : W) :
  let r := fst (h groupQuery w) in
  let p := setInstallerAgentGroup cmd in
  (In (ExecuteHelperCommand cmd) (calls (trace h p w)) <->
   snd r = None /\ ~ exists a b, fst r = (a ++ "dd-agent" ++ b)%string)
  /\
  (snd r = None -> (exists a b, fst r = (a ++ "dd-agent" ++ b)%string) ->
   result h p w = None /\ calls (trace h p w) = [groupQuery]).
Proof.
  destruct (setInstallerAgentGroup_run h cmd w) as [H1 [H2 H3]].
  cbv zeta in *.
  assert (Hq : forall l, l = [groupQuery] -> ~ In (ExecuteHelperCommand cmd) l).
  { intros l -> [H | []]. discriminate H. }
  split.
  - destruct (snd (fst (h groupQuery w))) as [e |] eqn:E.
    + destruct (H1 e eq_refl) as [Ht _]. split.
      * intro Hin. exfalso. rewrite Ht in Hin. exact (Hq _ eq_refl Hin).
      * intros [Hn _]. discriminate Hn.
    + destruct (Contains (fst (fst (h groupQuery w))) "dd-agent") eqn:C.
      * destruct (H2 eq_refl eq_refl) as [Ht _]. split.
        -- intro Hin. exfalso. rewrite Ht in Hin. exact (Hq _ eq_refl Hin).
        -- intros [_ Hn]. exfalso. apply Hn. apply Contains_spec. exact C.
      * destruct (H3 eq_refl eq_refl) as [Ht _]. split.
        -- intros _. split; [reflexivity |]. intro Hex.
           apply Contains_spec in Hex. congruence.
        -- intros _. rewrite Ht. right. left. reflexivity.
  - intros Hn Hex. apply Contains_spec in Hex.
    destruct (H2 Hn Hex) as [Ht [Hr _]]. rewrite Ht, Hr. split; reflexivity.
Qed.

(** [id] lists a group whose name merely contains [dd-agent]: the check
    passes and the helper is not called. *)
Lemma setInstallerAgentGroup_helper_iff_witness :
  result (scripted "dd-installer my-dd-agent-admins" neverFails)
    (setInstallerAgentGroup helperCommand) tt = None /\
  calls (trace (scripted "dd-installer my-dd-agent-admins" neverFails)
           (setInstallerAgentGroup helperCommand) tt) = [groupQuery].
Proof.
  apply (setInstallerAgentGroup_helper_iff
           (scripted "dd-installer my-dd-agent-admins" neverFails)
           helperCommand tt).
  - reflexivity.
  - exists "dd-installer my-", "-admins". reflexivity.
Defined.

(* ================================================================== *)
(** ** The order of the phases *)

(** A run that follows a sequence [l1 ++ l2] and has reached a call that
    does not occur in [l1] has made all of [l1] before it. *)
Lemma phase_order {A : Type} (P : A -> bool) (l1 l2 ops rest : list A)
  (i : nat) (c : A) :
  l1 ++ l2 = ops ++ rest ->
  forallb (fun x => negb (P x)) l1 = true ->
  nth_error ops i = Some c -> P c = true ->
  forall x, In x l1 -> exists j, j < i /\ nth_error ops j = Some x.
Proof.
  intros Hsplit Hl1 Hi Pc x Hx.
  rewrite forallb_forall in Hl1.
  assert (Hilen : i < length ops).
  { apply nth_error_Some. rewrite Hi. discriminate. }
  assert (Hi' : nth_error (l1 ++ l2) i = Some c).
  { rewrite Hsplit, nth_error_app1 by exact Hilen. exact Hi. }
  assert (Hge : length l1 <= i).
  { destruct (le_lt_dec (length l1) i) as [Hle | Hlt]; [exact Hle | exfalso].
    rewrite nth_error_app1 in Hi' by exact Hlt.
    apply nth_error_In, Hl1 in Hi'. rewrite Pc in Hi'. discriminate Hi'. }
  apply In_nth_error in Hx. destruct Hx as [j Hj].
  assert (Hjlen : j < length l1).
  { apply nth_error_Some. rewrite Hj. discriminate. }
  exists j. split; [lia |].
  rewrite <- (nth_error_app1 ops rest) by lia.
  rewrite <- Hsplit, nth_error_app1 by exact Hjlen. exact Hj.
Qed.

(** The host operations of RemoveAgent are the calls of its body, an
    initial part of [removeCalls]. *)
Lemma RemoveAgent_hostOps {W : Type} (h : host W) (w : W) :
  hostOps (trace h RemoveAgent w) =
    calls (trace h RemoveAgentBody (after h (StartSpan "remove_agent_units") w)) /\
  exists rest, removeCalls = hostOps (trace h RemoveAgent w) ++ rest.
Proof.
  destruct (RemoveAgent_run h w) as [_ [Ht _]]. cbv zeta in Ht.
  set (w0 := after h (StartSpan "remove_agent_units") w) in *.
  destruct (RemoveAgentBody_prefix h w0) as [rest Hrest].
  assert (Hops : hostOps (trace h RemoveAgent w) = calls (trace h RemoveAgentBody w0)).
  { unfold hostOps. rewrite Ht. f_equal. apply hostEvents_all.
    apply (forallb_prefix _ _ rest). rewrite <- Hrest.
    apply removeCalls_not_telemetry. }
  split; [exact Hops |]. exists rest. rewrite Hops. exact Hrest.
Qed.

(** In every run of RemoveAgent, a [disableUnit] or [removeUnit] is made
    only after [stopUnit] has been called on all ten units. *)
Theorem RemoveAgent_purges_after_all_stops
  {W : Type} (h : host W) (w : W) (i : nat) (c : call) :
  nth_error (hostOps (trace h RemoveAgent w)) i = Some c ->
  isPurge c = true ->
  forall unit, In unit (experimentalUnits ++ stableUnits) ->
    exists j, j < i /\
      nth_error (hostOps (trace h RemoveAgent w)) j = Some (UnitOp Stop unit).
Proof.
  intros Hi Pc unit Hu.
  destruct (RemoveAgent_hostOps h w) as [_ [rest Hrest]].
  apply (phase_order isPurge stopCalls
           (purge experimentalUnits ++ purge stableUnits
            ++ [RmAgentSymlink; RmInstallInfo])
           _ rest i c); try assumption.
  - vm_compute. reflexivity.
  - unfold stopCalls, onUnits. rewrite <- map_app. apply in_map. exact Hu.
Qed.

(** With nothing failing, the first disable is the eleventh operation and
    the stable main unit was stopped before it. *)
Lemma RemoveAgent_purges_after_all_stops_witness :
  exists j, j < 10 /\
    nth_error (hostOps (trace (scripted "" neverFails) RemoveAgent tt)) j
      = Some (UnitOp Stop agentUnit).
Proof.
  apply (RemoveAgent_purges_after_all_stops (scripted "" neverFails) tt 10
           (UnitOp Disable agentExp)).
  - reflexivity.
  - reflexivity.
  - simpl. tauto.
Defined.

(** In every run of RemoveAgent, a stable unit is disabled or removed only
    after every experimental unit has been disabled and removed. *)
Theorem RemoveAgent_purges_experimental_first
  {W : Type} (h : host W) (w : W) (i : nat) (c : call) :
  nth_error (hostOps (trace h RemoveAgent w)) i = Some c ->
  isPurgeOf stableUnits c = true ->
  forall unit, In unit experimentalUnits ->
    exists j k, j < k < i /\
      nth_error (hostOps (trace h RemoveAgent w)) j = Some (UnitOp Disable unit) /\
      nth_error (hostOps (trace h RemoveAgent w)) k = Some (UnitOp Remove unit).
Proof.
  intros Hi Pc unit Hu.
  destruct (RemoveAgent_hostOps h w) as [_ [rest Hrest]].
  assert (Hphase : forall x, In x (stopCalls ++ purge experimentalUnits) ->
            exists j, j < i /\
              nth_error (hostOps (trace h RemoveAgent w)) j = Some x).
  { apply (phase_order (isPurgeOf stableUnits)
             (stopCalls ++ purge experimentalUnits)
             (purge stableUnits ++ [RmAgentSymlink; RmInstallInfo])
             _ rest i c); try assumption.
    vm_compute. reflexivity. }
  assert (Hd : In (UnitOp Disable unit) (stopCalls ++ purge experimentalUnits)).
  { apply in_or_app. right. apply in_flat_map. exists unit.
    split; [exact Hu | left; reflexivity]. }
  assert (Hr : In (UnitOp Remove unit) (stopCalls ++ purge experimentalUnits)).
  { apply in_or_app. right. apply in_flat_map. exists unit.
    split; [exact Hu | right; left; reflexivity]. }
  destruct (Hphase _ Hr) as [k [Hk Hkn]].
  assert (Hrfd : removeFollowsDisable removeCalls = true) by (vm_compute; reflexivity).
  assert (Hklen : k < length (hostOps (trace h RemoveAgent w))).
  { apply nth_error_Some. rewrite Hkn. discriminate. }
  assert (HkL : nth_error removeCalls k = Some (UnitOp Remove unit)).
  { rewrite Hrest, nth_error_app1 by exact Hklen. exact Hkn. }
  destruct k as [| j].
  { vm_compute in HkL. discriminate HkL. }
  exists j, (S j). split; [lia |]. split; [| exact Hkn].
  assert (HjL : removeFollowsDisableAt removeCalls j = true).
  { change (forallb (removeFollowsDisableAt removeCalls)
              (seq 0 (length removeCalls)) = true) in Hrfd.
    rewrite forallb_forall in Hrfd. apply Hrfd. apply in_seq.
    assert (S j < length removeCalls).
    { apply nth_error_Some. rewrite HkL. discriminate. }
    lia. }
  unfold removeFollowsDisableAt in HjL. rewrite HkL in HjL.
  rewrite <- (nth_error_app1 _ rest) by lia. rewrite <- Hrest.
  destruct (nth_error removeCalls j) as [[| | [] u' | | | | | | | | |] |];
    try discriminate HjL.
  apply String.eqb_eq in HjL. subst u'. reflexivity.
Qed.

(** With nothing failing, the stable main unit is disabled as the
    twenty-first operation, after the experimental units are purged. *)
Lemma RemoveAgent_purges_experimental_first_witness :
  exists j k, j < k < 20 /\
    nth_error (hostOps (trace (scripted "" neverFails) RemoveAgent tt)) j
      = Some (UnitOp Disable securityAgentExp) /\
    nth_error (hostOps (trace (scripted "" neverFails) RemoveAgent tt)) k
      = Some (UnitOp Remove securityAgentExp).
Proof.
  apply (RemoveAgent_purges_experimental_first (scripted "" neverFails) tt 20
           (UnitOp Disable agentUnit)).
  - reflexivity.
  - reflexivity.
  - simpl. tauto.
Defined.

(** A call that does not occur in the first part [l1] of the sequence is
    made at a position past [l1]. *)
Lemma phase_start {A : Type} (P : A -> bool) (l1 l2 ops rest : list A)
  (i : nat) (c : A) :
  l1 ++ l2 = ops ++ rest ->
  forallb (fun x => negb (P x)) l1 = true ->
  nth_error ops i = Some c -> P c = true ->
  length l1 <= i.
Proof.
  intros Hsplit Hl1 Hi Pc. rewrite forallb_forall in Hl1.
  assert (Hilen : i < length ops).
  { apply nth_error_Some. rewrite Hi. discriminate. }
  destruct (le_lt_dec (length l1) i) as [Hle | Hlt]; [exact Hle | exfalso].
  assert (Hi' : nth_error (l1 ++ l2) i = Some c).
  { rewrite Hsplit, nth_error_app1 by exact Hilen. exact Hi. }
  rewrite nth_error_app1 in Hi' by exact Hlt.
  apply nth_error_In, Hl1 in Hi'. rewrite Pc in Hi'. discriminate Hi'.
Qed.

Lemma removeCalls_remove_follows_disable (i : nat) (u : string) :
  nth_error removeCalls i = Some (UnitOp Remove u) ->
  exists k, i = S k /\ nth_error removeCalls k = Some (UnitOp Disable u).
Proof.
  intro Hi.
  assert (Hrfd : forallb (removeFollowsDisableAt removeCalls)
                   (seq 0 (length removeCalls)) = true) by (vm_compute; reflexivity).
  destruct i as [| k].
  { vm_compute in Hi. discriminate Hi. }
  exists k. split; [reflexivity |].
  rewrite forallb_forall in Hrfd.
  assert (Hk : removeFollowsDisableAt removeCalls k = true).
  { apply Hrfd, in_seq.
    assert (S k < length removeCalls).
    { apply nth_error_Some. rewrite Hi. discriminate. }
    lia. }
  unfold removeFollowsDisableAt in Hk. rewrite Hi in Hk.
  destruct (nth_error removeCalls k) as [[| | [] u' | | | | | | | | |] |];
    try discriminate Hk.
  apply String.eqb_eq in Hk. subst u'. reflexivity.
Qed.

Lemma prefix_remove_follows_disable (ops rest : list call) (i : nat) (u : string) :
  removeCalls = ops ++ rest ->
  nth_error ops i = Some (UnitOp Remove u) ->
  exists k, i = S k /\ nth_error ops k = Some (UnitOp Disable u).
Proof.
  intros Hrest Hi.
  assert (Hilen : i < length ops).
  { apply nth_error_Some. rewrite Hi. discriminate. }
  assert (HiL : nth_error removeCalls i = Some (UnitOp Remove u)).
  { rewrite Hrest, nth_error_app1 by exact Hilen. exact Hi. }
  destruct (removeCalls_remove_follows_disable i u HiL) as [k [-> Hk]].
  exists k. split; [reflexivity |].
  rewrite Hrest, nth_error_app1 in Hk by lia. exact Hk.
Qed.

(** In every run of RemoveAgent, a [removeUnit] comes right after the
    [disableUnit] of the same unit: no unit is removed without having been
    disabled, and nothing happens between the two. *)
Theorem RemoveAgent_remove_follows_disable
  {W : Type} (h : host W) (w : W) (i : nat) (u : string) :
  nth_error (hostOps (trace h RemoveAgent w)) i = Some (UnitOp Remove u) ->
  exists k, i = S k /\
    nth_error (hostOps (trace h RemoveAgent w)) k = Some (UnitOp Disable u).
Proof.
  intro Hi.
  destruct (RemoveAgent_hostOps h w) as [_ [rest Hrest]].
  exact (prefix_remove_follows_disable _ rest i u Hrest Hi).
Qed.

(** With nothing failing, the experimental main unit is removed as the
    twelfth operation, right after it is disabled. *)
Lemma RemoveAgent_remove_follows_disable_witness :
  exists k, 11 = S k /\
    nth_error (hostOps (trace (scripted "" neverFails) RemoveAgent tt)) k
      = Some (UnitOp Disable agentExp).
Proof.
  apply (RemoveAgent_remove_follows_disable (scripted "" neverFails) tt 11 agentExp).
  reflexivity.
Defined.

(** In every run of RemoveAgent, the symlink and the install-info marker
    are touched only after all ten units have been disabled and removed. *)
Theorem RemoveAgent_cleanup_after_all_purged
  {W : Type} (h : host W) (w : W) (i : nat) (c : call) :
  nth_error (hostOps (trace h RemoveAgent w)) i = Some c ->
  isFinalCleanup c = true ->
  forall unit, In unit (experimentalUnits ++ stableUnits) ->
    exists j k, j < k < i /\
      nth_error (hostOps (trace h RemoveAgent w)) j = Some (UnitOp Disable unit) /\
      nth_error (hostOps (trace h RemoveAgent w)) k = Some (UnitOp Remove unit).
Proof.
  intros Hi Pc unit Hu.
  destruct (RemoveAgent_hostOps h w) as [_ [rest Hrest]].
  assert (Hr : In (UnitOp Remove unit)
                 (stopCalls ++ purge experimentalUnits ++ purge stableUnits)).
  { apply in_or_app. right. unfold purge. rewrite <- flat_map_app.
    apply in_flat_map. exists unit. split; [exact Hu | right; left; reflexivity]. }
  assert (Hno : forallb (fun x => negb (isFinalCleanup x))
                  (stopCalls ++ purge experimentalUnits ++ purge stableUnits) = true)
    by (vm_compute; reflexivity).
  destruct (phase_order isFinalCleanup
              (stopCalls ++ purge experimentalUnits ++ purge stableUnits)
              [RmAgentSymlink; RmInstallInfo] _ rest i c
              Hrest Hno Hi Pc _ Hr) as [k [Hk Hkn]].
  destruct (prefix_remove_follows_disable _ rest k unit Hrest Hkn) as [j [-> Hj]].
  exists j, (S j). split; [lia |]. split; assumption.
Qed.

(** With nothing failing, the symlink is removed as the thirty-first
    operation, after the stable security unit is disabled and removed. *)
Lemma RemoveAgent_cleanup_after_all_purged_witness :
  exists j k, j < k < 30 /\
    nth_error (hostOps (trace (scripted "" neverFails) RemoveAgent tt)) j
      = Some (UnitOp Disable securityAgentUnit) /\
    nth_error (hostOps (trace (scripted "" neverFails) RemoveAgent tt)) k
      = Some (UnitOp Remove securityAgentUnit).
Proof.
  apply (RemoveAgent_cleanup_after_all_purged (scripted "" neverFails) tt 30
           RmAgentSymlink).
  - reflexivity.
  - reflexivity.
  - simpl. tauto.
Defined.

(* ================================================================== *)
(** ** What a run contains *)

Lemma strings_eqb_refl (l : list string) : strings_eqb l l = true.
Proof.
  induction l as [| s l IH]; simpl; [| rewrite String.eqb_refl, IH]; reflexivity.
Qed.

Lemma call_eqb_refl (c : call) : call_eqb c c = true.
Proof.
  destruct c as [n a | x | a u | | | | t v | | o | o e | m | m]; simpl;
    rewrite ?String.eqb_refl, ?strings_eqb_refl; try reflexivity.
  - destruct a; reflexivity.
  - destruct e as [e |]; [| reflexivity].
    unfold nilable_eqb, error_eqb. apply String.eqb_refl.
Qed.

Lemma noRepeat_NoDup (cs : list call) : noRepeat cs = true -> NoDup cs.
Proof.
  induction cs as [| c cs IH]; simpl; intro H.
  - constructor.
  - apply andb_prop in H. destruct H as [Hc Hcs]. constructor.
    + intro Hin. apply negb_true_iff in Hc.
      assert (Hex : existsb (call_eqb c) cs = true).
      { apply existsb_exists. exists c. split; [exact Hin | apply call_eqb_refl]. }
      congruence.
    + exact (IH Hcs).
Qed.

(** The install-info marker is removed exactly in the runs of RemoveAgent
    that return nil: any failure leaves it in place. *)
Theorem RemoveAgent_marker_iff_success {W : Type} (h : host W) (w : W) :
  In RmInstallInfo (hostOps (trace h RemoveAgent w)) <->
  result h RemoveAgent w = None.
Proof.
  destruct (RemoveAgent_hostOps h w) as [Hops [rest Hrest]].
  destruct (RemoveAgent_run h w) as [Hr _]. cbv zeta in Hr.
  rewrite Hr. rewrite Hops in *. clear Hops Hr.
  set (w0 := after h (StartSpan "remove_agent_units") w) in *.
  pose proof (RemoveAgentBody_run h w0) as Hrun.
  inversion Hrun as [t Hc Hok Ht Hres | pre c wrap post tpre ev e Hp Hc Hok Hev He Ht Hres].
  - rewrite Hc, map_fst_removePlan. split; [reflexivity |].
    intros _. vm_compute. tauto.
  - split; [| discriminate]. intro Hin. exfalso.
    rewrite <- Ht in Hrest.
    apply In_nth_error in Hin. destruct Hin as [i Hi].
    assert (Hno : forallb (fun x => negb (call_eqb RmInstallInfo x))
                    (removelast removeCalls) = true) by (vm_compute; reflexivity).
    assert (Hge : length (removelast removeCalls) <= i).
    { apply (phase_start (call_eqb RmInstallInfo) (removelast removeCalls)
               [RmInstallInfo] (calls (tpre ++ [ev])) rest i RmInstallInfo);
        [exact Hrest | exact Hno | exact Hi | reflexivity]. }
    assert (Hlen : length removeCalls = 32) by reflexivity.
    assert (Hlen' : length (removelast removeCalls) = 31) by reflexivity.
    assert (Hilen : i < length (calls (tpre ++ [ev]))).
    { apply nth_error_Some. rewrite Hi. discriminate. }
    assert (Hle : length (calls (tpre ++ [ev])) <= 32).
    { pose proof (f_equal (@length call) Hrest) as HL.
      rewrite length_app, Hlen in HL. lia. }
    assert (Hi31 : i = 31) by lia. subst i.
    rewrite calls_app in Hi. unfold calls in Hi, Hilen, Hle.
    rewrite length_map, length_app in Hilen, Hle. simpl in Hilen, Hle.
    rewrite nth_error_app2 in Hi by (rewrite length_map; lia).
    rewrite length_map in Hi.
    replace (31 - length tpre) with 0 in Hi by lia.
    simpl in Hi. injection Hi as Hi.
    destruct ev as [c' r']. simpl in Hi. subst c'.
    unfold ev_err in He. simpl in He. discriminate He.
Qed.

(** RemoveAgent only tears down: each of its host operations is a stop, a
    disable, a remove, or the removal of the symlink or of the marker, and
    it makes none of them twice. *)
Theorem RemoveAgent_only_teardown_once {W : Type} (h : host W) (w : W) :
  forallb isRemoveStep (hostOps (trace h RemoveAgent w)) = true /\
  NoDup (hostOps (trace h RemoveAgent w)).
Proof.
  destruct (RemoveAgent_hostOps h w) as [_ [rest Hrest]].
  split.
  - apply (forallb_prefix _ _ rest). rewrite <- Hrest. vm_compute. reflexivity.
  - apply (NoDup_app_remove_r _ rest). rewrite <- Hrest.
    apply noRepeat_NoDup. vm_compute. reflexivity.
Qed.

(* ================================================================== *)
(** ** The forward sequence of SetupAgent *)

Lemma filter_all {A : Type} (f : A -> bool) (l : list A) :
  forallb f l = true -> filter f l = l.
Proof.
  induction l as [| a l IH]; simpl; intro H.
  - reflexivity.
  - apply andb_prop in H. destruct H as [Ha Hl]. rewrite Ha, (IH Hl). reflexivity.
Qed.

(** The calls of the forward sequence are an initial part of the calls of
    the group check followed by [setupCalls]. *)
Lemma SetupAgentBody_calls {W : Type} (h : host W) (cmd : string) (w : W) :
  exists rest,
    calls (trace h (setInstallerAgentGroup cmd) w) ++ setupCalls
    = calls (trace h (SetupAgentBody cmd) w) ++ rest.
Proof.
  pose proof (SetupAgentBody_run h cmd w) as HB. cbv zeta in HB.
  destruct (result h (setInstallerAgentGroup cmd) w) as [e |].
  - destruct HB as [Ht _]. exists setupCalls. rewrite Ht. reflexivity.
  - destruct HB as [Ht _].
    destruct (setupSteps_prefix h (final h (setInstallerAgentGroup cmd) w))
      as [rest Hrest].
    exists rest. rewrite Ht, calls_app, <- app_assoc, <- Hrest. reflexivity.
Qed.

(** The same, with the sequence cut in two: a property that no call of the
    first part has holds of no call made before the first part is done. *)
Lemma SetupAgentBody_phase {W : Type} (h : host W) (cmd : string) (w : W)
  (P : call -> bool) (l1 l2 : list call) (i : nat) (c : call) :
  setupCalls = l1 ++ l2 ->
  P groupQuery = false -> P (ExecuteHelperCommand cmd) = false ->
  forallb (fun x => negb (P x)) l1 = true ->
  nth_error (calls (trace h (SetupAgentBody cmd) w)) i = Some c ->
  P c = true ->
  forall x, In x l1 ->
    exists j, j < i /\ nth_error (calls (trace h (SetupAgentBody cmd) w)) j = Some x.
Proof.
  intros Hsplit Pq Ph Hl1 Hi Pc x Hx.
  destruct (SetupAgentBody_calls h cmd w) as [rest Hrest].
  destruct (setInstallerAgentGroup_calls h cmd w) as [Hg _]. cbv zeta in Hg.
  apply (phase_order P (calls (trace h (setInstallerAgentGroup cmd) w) ++ l1) l2
           _ rest i c); try assumption.
  - rewrite <- app_assoc, <- Hsplit. exact Hrest.
  - rewrite forallb_app, Hl1, andb_true_r.
    destruct Hg as [Hg | Hg]; rewrite Hg; simpl; rewrite ?Pq, ?Ph; reflexivity.
  - apply in_or_app. right. exact Hx.
Qed.

(** No unit is enabled or started before all ten units are loaded and the
    service manager has reloaded its configuration. *)
Theorem SetupAgent_activates_after_load_and_reload
  {W : Type} (h : host W) (cmd : string) (w : W) (i : nat) (c : call) :
  nth_error (calls (trace h (SetupAgentBody cmd) w)) i = Some c ->
  isActivation c = true ->
  (forall unit, In unit (stableUnits ++ experimentalUnits) ->
     exists j, j < i /\
       nth_error (calls (trace h (SetupAgentBody cmd) w)) j
         = Some (UnitOp Load unit))
  /\
  (exists j, j < i /\
     nth_error (calls (trace h (SetupAgentBody cmd) w)) j = Some SystemdReload).
Proof.
  intros Hi Pc.
  assert (Hphase : forall x, In x (loadCalls ++ [SystemdReload]) ->
            exists j, j < i /\
              nth_error (calls (trace h (SetupAgentBody cmd) w)) j = Some x).
  { apply (SetupAgentBody_phase h cmd w isActivation
             (loadCalls ++ [SystemdReload])
             (onUnits Enable stableUnits ++ onUnits Start stableUnits
              ++ [CreateAgentSymlink;
                  WriteInstallInfo "installer_package" "manual_update"])
             i c); try assumption; reflexivity. }
  split.
  - intros unit Hu. apply Hphase. apply in_or_app. left.
    unfold loadCalls, onUnits. rewrite <- map_app. apply in_map. exact Hu.
  - apply Hphase. apply in_or_app. right. left. reflexivity.
Qed.

(** On a host where nothing fails and the installer is in the group, the
    first enable is the thirteenth call; the experimental security unit was
    loaded and the configuration reloaded before it. *)
Lemma SetupAgent_activates_after_load_and_reload_witness :
  (exists j, j < 12 /\
     nth_error (calls (trace (scripted "dd-installer dd-agent" neverFails)
                         (SetupAgentBody helperCommand) tt)) j
       = Some (UnitOp Load securityAgentExp))
  /\
  (exists j, j < 12 /\
     nth_error (calls (trace (scripted "dd-installer dd-agent" neverFails)
                         (SetupAgentBody helperCommand) tt)) j
       = Some SystemdReload).
Proof.
  destruct (SetupAgent_activates_after_load_and_reload
              (scripted "dd-installer dd-agent" neverFails) helperCommand tt
              12 (UnitOp Enable agentUnit) eq_refl eq_refl) as [H1 H2].
  split; [| exact H2].
  apply H1. simpl. tauto.
Defined.

(** No unit is started before all five stable units are enabled, and the
    install-info marker is written only after all five stable units are
    started and the symlink is created. *)
Theorem SetupAgent_starts_and_marker_last
  {W : Type} (h : host W) (cmd : string) (w : W) (i : nat) (c : call) :
  nth_error (calls (trace h (SetupAgentBody cmd) w)) i = Some c ->
  (isStart c = true ->
   forall unit, In unit stableUnits ->
     exists j, j < i /\
       nth_error (calls (trace h (SetupAgentBody cmd) w)) j
         = Some (UnitOp Enable unit))
  /\
  (isWriteInstallInfo c = true ->
   (forall unit, In unit stableUnits ->
      exists j, j < i /\
        nth_error (calls (trace h (SetupAgentBody cmd) w)) j
          = Some (UnitOp Start unit))
   /\
   (exists j, j < i /\
      nth_error (calls (trace h (SetupAgentBody cmd) w)) j
        = Some CreateAgentSymlink)).
Proof.
  intros Hi. split.
  - intros Pc unit Hu.
    apply (SetupAgentBody_phase h cmd w isStart
             (loadCalls ++ [SystemdReload] ++ onUnits Enable stableUnits)
             (onUnits Start stableUnits
              ++ [CreateAgentSymlink;
                  WriteInstallInfo "installer_package" "manual_update"])
             i c); try assumption; try reflexivity.
    apply in_or_app. right. right. cbn [app]. apply in_map. exact Hu.
  - intros Pc.
    assert (Hphase : forall x,
              In x (loadCalls ++ [SystemdReload] ++ onUnits Enable stableUnits
                    ++ onUnits Start stableUnits ++ [CreateAgentSymlink]) ->
              exists j, j < i /\
                nth_error (calls (trace h (SetupAgentBody cmd) w)) j = Some x).
    { apply (SetupAgentBody_phase h cmd w isWriteInstallInfo
               (loadCalls ++ [SystemdReload] ++ onUnits Enable stableUnits
                ++ onUnits Start stableUnits ++ [CreateAgentSymlink])
               [WriteInstallInfo "installer_package" "manual_update"]
               i c); try assumption; reflexivity. }
    split.
    + intros unit Hu. apply Hphase.
      apply in_or_app. right. right. cbn [app]. apply in_or_app. right.
      apply in_or_app. left. apply in_map. exact Hu.
    + apply Hphase.
      apply in_or_app. right. right. cbn [app]. apply in_or_app. right.
      apply in_or_app. right. left. reflexivity.
Qed.

(** On a host where nothing fails and the installer is in the group, the
    marker is written as the twenty-fourth call. *)
Lemma SetupAgent_starts_and_marker_last_witness :
  (forall unit, In unit stableUnits ->
     exists j, j < 23 /\
       nth_error (calls (trace (scripted "dd-installer dd-agent" neverFails)
                           (SetupAgentBody helperCommand) tt)) j
         = Some (UnitOp Start unit))
  /\
  (exists j, j < 23 /\
     nth_error (calls (trace (scripted "dd-installer dd-agent" neverFails)
                         (SetupAgentBody helperCommand) tt)) j
       = Some CreateAgentSymlink).
Proof.
  apply (SetupAgent_starts_and_marker_last
           (scripted "dd-installer dd-agent" neverFails) helperCommand tt
           23 (WriteInstallInfo "installer_package" "manual_update") eq_refl).
  reflexivity.
Defined.

Lemma setupPlan_wrap (c : call) (wrap : error -> error) :
  In (c, wrap) setupPlan -> wrap = unchanged.
Proof.
  unfold setupPlan. intro H. apply in_map_iff in H.
  destruct H as [c' [Heq _]]. injection Heq as _ <-. reflexivity.
Qed.

(** The group check ends with nil after calls that all succeeded, or with
    the error of its last call. *)
Lemma setInstallerAgentGroup_fail_fast {W : Type} (h : host W) (cmd : string) (w : W) :
  let t := trace h (setInstallerAgentGroup cmd) w in
  let r := result h (setInstallerAgentGroup cmd) w in
  (r = None /\ Forall succeeded t)
  \/ (exists tpre ev e,
        t = tpre ++ [ev] /\ Forall succeeded tpre /\
        ev_err ev = Some e /\ r = Some e).
Proof.
  destruct (setInstallerAgentGroup_run h cmd w) as [H1 [H2 H3]].
  cbv zeta in *.
  destruct (snd (fst (h groupQuery w))) as [e |] eqn:E.
  - destruct (H1 e eq_refl) as [Ht [Hr _]]. right.
    exists [], (Ev groupQuery (fst (h groupQuery w))), e.
    rewrite Ht, Hr. repeat split; [constructor | exact E].
  - assert (Hq : succeeded (Ev groupQuery (fst (h groupQuery w)))) by exact E.
    destruct (Contains (fst (fst (h groupQuery w))) "dd-agent") eqn:C.
    + destruct (H2 eq_refl eq_refl) as [Ht [Hr _]]. left.
      rewrite Ht, Hr. split; [reflexivity | repeat constructor; exact Hq].
    + destruct (H3 eq_refl eq_refl) as [Ht [Hr _]]. rewrite Ht, Hr.
      destruct (fst (h (ExecuteHelperCommand cmd) (after h groupQuery w)))
        as [e |] eqn:Eh.
      * right.
        exists [Ev groupQuery (fst (h groupQuery w))],
               (Ev (ExecuteHelperCommand cmd) (Some e)), e.
        repeat split. repeat constructor; exact Hq.
      * left. split; [reflexivity | repeat constructor; exact Hq].
Qed.

(** The forward sequence of SetupAgent is fail-fast and passes errors on
    untouched: either every call it makes succeeds, all of [setupCalls] are
    made after the group check and the outcome is nil; or the last call it
    makes is the only one that failed, and the outcome is that call's own
    error, with no unit name or action added to it. *)
Theorem SetupAgentBody_fail_fast {W : Type} (h : host W) (cmd : string) (w : W) :
  let t := trace h (SetupAgentBody cmd) w in
  let r := result h (SetupAgentBody cmd) w in
  (r = None /\ Forall succeeded t /\
   calls t = calls (trace h (setInstallerAgentGroup cmd) w) ++ setupCalls)
  \/ (exists tpre ev e,
        t = tpre ++ [ev] /\ Forall succeeded tpre /\
        ev_err ev = Some e /\ r = Some e).
Proof.
  cbv zeta.
  pose proof (SetupAgentBody_run h cmd w) as HB. cbv zeta in HB.
  pose proof (setInstallerAgentGroup_fail_fast h cmd w) as HG. cbv zeta in HG.
  destruct HG as [[Hgr Hgok] | [tpre [ev [e [Hgt [Hgok [Hge Hgr]]]]]]];
    rewrite Hgr in HB; destruct HB as [Ht Hr].
  - pose proof (setupSteps_run h (final h (setInstallerAgentGroup cmd) w)) as Hrun.
    rewrite Ht, Hr.
    inversion Hrun as [t Hc Hok Hts Hres
                      | pre c wrap post tpre ev e Hp Hc Hok Hev He Hts Hres].
    + left. split; [reflexivity |]. split.
      * apply Forall_app. split; assumption.
      * rewrite calls_app, Hc, map_fst_setupPlan. reflexivity.
    + right.
      assert (Hw : wrap = unchanged).
      { apply (setupPlan_wrap c). rewrite Hp. apply in_or_app. right. left.
        reflexivity. }
      exists (trace h (setInstallerAgentGroup cmd) w ++ tpre), ev, e.
      rewrite app_assoc. split; [reflexivity |]. split.
      * apply Forall_app. split; assumption.
      * split; [exact He | rewrite Hw; reflexivity].
  - right. exists tpre, ev, e. rewrite Ht, Hr, Hgt.
    repeat split; assumption.
Qed.

(* ================================================================== *)
(** ** SetupAgent as a whole *)

Lemma SetupAgentBody_no_telemetry {W : Type} (h : host W) (cmd : string) (w : W) :
  forallb (fun c => negb (isTelemetry c))
    (calls (trace h (SetupAgentBody cmd) w)) = true
  /\ forallb (fun c => negb (isRemoveStep c))
       (calls (trace h (SetupAgentBody cmd) w)) = true
  /\ NoDup (calls (trace h (SetupAgentBody cmd) w)).
Proof.
  destruct (SetupAgentBody_calls h cmd w) as [rest Hrest].
  destruct (setInstallerAgentGroup_calls h cmd w) as [Hg _]. cbv zeta in Hg.
  split; [| split].
  - apply (forallb_prefix _ _ rest). rewrite <- Hrest.
    destruct Hg as [Hg | Hg]; rewrite Hg; reflexivity.
  - apply (forallb_prefix _ _ rest). rewrite <- Hrest.
    destruct Hg as [Hg | Hg]; rewrite Hg; reflexivity.
  - apply (NoDup_app_remove_r _ rest). rewrite <- Hrest.
    apply noRepeat_NoDup.
    destruct Hg as [Hg | Hg]; rewrite Hg; reflexivity.
Qed.

(** SetupAgent rolls back exactly when its forward sequence fails.  If the
    forward sequence succeeds, SetupAgent returns nil and makes no other
    host operation.  If it fails, at whatever step, SetupAgent logs the
    failure, runs RemoveAgent once, from the state the failure left, and
    returns what RemoveAgent returns. *)
Theorem SetupAgent_rollback_iff_failure
  {W : Type} (h : host W) (cmd : string) (w : W) :
  let w0 := after h (StartSpan "setup_agent") w in
  let body := SetupAgentBody cmd in
  (result h body w0 = None ->
   result h (SetupAgent cmd) w = None /\
   hostOps (trace h (SetupAgent cmd) w) = calls (trace h body w0) /\
   ~ In (StartSpan "remove_agent_units") (calls (trace h (SetupAgent cmd) w)))
  /\
  (forall e, result h body w0 = Some e ->
   let logged := LogErrorf (Sprintf "Failed to setup agent: %s, reverting" [Error e]) in
   let w2 := after h logged (final h body w0) in
   result h (SetupAgent cmd) w = result h RemoveAgent w2 /\
   hostOps (trace h (SetupAgent cmd) w)
     = calls (trace h body w0) ++ hostOps (trace h RemoveAgent w2) /\
   In logged (calls (trace h (SetupAgent cmd) w)) /\
   In (StartSpan "remove_agent_units") (calls (trace h (SetupAgent cmd) w))).
Proof.
  cbv zeta.
  set (w0 := after h (StartSpan "setup_agent") w).
  destruct (SetupAgentBody_no_telemetry h cmd w0) as [Hnt' _].
  pose proof (filter_all _ _ Hnt') as Hnt.
  split.
  - intro Hb.
    assert (Hc : calls (trace h (SetupAgent cmd) w)
                 = StartSpan "setup_agent" :: calls (trace h (SetupAgentBody cmd) w0)
                   ++ [FinishSpan "setup_agent" None]).
    { rewrite SetupAgent_trace. cbv zeta. fold w0. rewrite Hb.
      destruct (SetupAgentDeferred_nil h (final h (SetupAgentBody cmd) w0)) as [_ Hd].
      change (calls (?a :: ?t)) with (ev_call a :: calls t).
      rewrite calls_app, Hd. reflexivity. }
    split; [| split].
    + rewrite SetupAgent_result. cbv zeta. fold w0. rewrite Hb.
      apply SetupAgentDeferred_nil.
    + rewrite hostOps_calls, Hc. cbn [filter isTelemetry negb].
      rewrite filter_app, Hnt. cbn [filter isTelemetry negb]. apply app_nil_r.
    + rewrite Hc. intros [H | H]; [discriminate H |].
      apply in_app_or in H. destruct H as [H | [H | []]]; [| discriminate H].
      rewrite forallb_forall in Hnt'. apply Hnt' in H. discriminate H.
  - intros e Hb.
    destruct (SetupAgent_failed_run h cmd w e Hb) as [Hr Hc]. cbv zeta in Hr, Hc.
    fold w0 in Hr, Hc.
    destruct (RemoveAgent_run h
                (after h (LogErrorf (Sprintf "Failed to setup agent: %s, reverting"
                                       [Error e]))
                   (final h (SetupAgentBody cmd) w0))) as [_ [_ Hrc]].
    cbv zeta in Hrc.
    split; [exact Hr |]. split; [| split].
    + rewrite !hostOps_calls, Hc. cbn [filter isTelemetry negb].
      rewrite filter_app, Hnt. f_equal. cbn [filter isTelemetry negb].
      rewrite !filter_app.
      destruct (result h RemoveAgent _); cbn [filter isTelemetry negb];
        rewrite ?app_nil_r; reflexivity.
    + rewrite Hc. right. apply in_or_app. right. left. reflexivity.
    + rewrite Hc. right. apply in_or_app. right. right.
      apply in_or_app. left. rewrite Hrc. left. reflexivity.
Qed.

(** The two cases on two scripted hosts: nothing fails; the helper is
    refused. *)
Lemma SetupAgent_rollback_iff_failure_witness :
  (result (scripted "dd-installer dd-agent" neverFails)
     (SetupAgent helperCommand) tt = None /\
   hostOps (trace (scripted "dd-installer dd-agent" neverFails)
              (SetupAgent helperCommand) tt)
     = calls (trace (scripted "dd-installer dd-agent" neverFails)
                (SetupAgentBody helperCommand) tt))
  /\
  (result (scripted "dd-installer" helperRefused) (SetupAgent helperCommand) tt
     = result (scripted "dd-installer" helperRefused) RemoveAgent tt /\
   In (StartSpan "remove_agent_units")
      (calls (trace (scripted "dd-installer" helperRefused)
                (SetupAgent helperCommand) tt))).
Proof.
  destruct (SetupAgent_rollback_iff_failure
              (scripted "dd-installer dd-agent" neverFails) helperCommand tt)
    as [Hok _].
  destruct (SetupAgent_rollback_iff_failure
              (scripted "dd-installer" helperRefused) helperCommand tt)
    as [_ Hfail].
  destruct (Hok eq_refl) as [H1 [H2 _]].
  destruct (Hfail (MkError "permission denied") eq_refl) as [H3 [_ [_ H4]]].
  split; split; assumption.
Defined.

(** The host operations of SetupAgent: those of the forward sequence,
    followed, if it failed, by those of RemoveAgent. *)
Lemma SetupAgent_hostOps {W : Type} (h : host W) (cmd : string) (w : W) :
  let w0 := after h (StartSpan "setup_agent") w in
  hostOps (trace h (SetupAgent cmd) w) = calls (trace h (SetupAgentBody cmd) w0)
  \/ exists w2,
       hostOps (trace h (SetupAgent cmd) w)
       = calls (trace h (SetupAgentBody cmd) w0) ++ hostOps (trace h RemoveAgent w2).
Proof.
  cbv zeta. set (w0 := after h (StartSpan "setup_agent") w).
  destruct (SetupAgentBody_no_telemetry h cmd w0) as [Hnt' _].
  pose proof (filter_all _ _ Hnt') as Hnt.
  destruct (result h (SetupAgentBody cmd) w0) as [e |] eqn:Hb.
  - right.
    destruct (SetupAgent_failed_run h cmd w e Hb) as [_ Hc]. cbv zeta in Hc.
    fold w0 in Hc.
    eexists. rewrite !hostOps_calls, Hc. cbn [filter isTelemetry negb].
    rewrite filter_app, Hnt. f_equal. cbn [filter isTelemetry negb].
    rewrite !filter_app.
    destruct (result h RemoveAgent _); cbn [filter isTelemetry negb];
      rewrite ?app_nil_r; reflexivity.
  - left. rewrite hostOps_calls, SetupAgent_trace. cbv zeta. fold w0. rewrite Hb.
    destruct (SetupAgentDeferred_nil h (final h (SetupAgentBody cmd) w0)) as [_ Hd].
    change (calls (?a :: ?t)) with (ev_call a :: calls t).
    rewrite calls_app, Hd. cbn [ev_call filter isTelemetry negb].
    rewrite filter_app, Hnt. cbn [filter isTelemetry negb]. apply app_nil_r.
Qed.

(** No retries: in a run of SetupAgent, rollback included, no operation on
    the host is made twice. *)
Theorem SetupAgent_no_operation_twice
  {W : Type} (h : host W) (cmd : string) (w : W) :
  NoDup (hostOps (trace h (SetupAgent cmd) w)).
Proof.
  set (w0 := after h (StartSpan "setup_agent") w).
  destruct (SetupAgentBody_no_telemetry h cmd w0) as [_ [Hnr Hnd]].
  destruct (SetupAgent_hostOps h cmd w) as [Hops | [w2 Hops]];
    cbv zeta in Hops; fold w0 in Hops; rewrite Hops.
  - exact Hnd.
  - destruct (RemoveAgent_hostOps h w2) as [_ [rest Hrest]].
    apply NoDup_app.
    + exact Hnd.
    + apply (NoDup_app_remove_r _ rest). rewrite <- Hrest.
      apply noRepeat_NoDup. vm_compute. reflexivity.
    + intros c Hc Hc'. rewrite forallb_forall in Hnr. apply Hnr in Hc.
      assert (Hin : In c removeCalls).
      { rewrite Hrest. apply in_or_app. left. exact Hc'. }
      apply removeCalls_kinds in Hin. rewrite Hin in Hc. discriminate Hc.
Qed.

Lemma RemoveAgent_error_form {W : Type} (h : host W) (w : W) (err : error) :
  result h RemoveAgent w = Some err ->
  HasPrefix (Error err) "Failed to " = true.
Proof.
  destruct (RemoveAgent_run h w) as [Hr _]. cbv zeta in Hr. rewrite Hr. clear Hr.
  set (w0 := after h (StartSpan "remove_agent_units") w).
  pose proof (RemoveAgentBody_run h w0) as Hrun.
  inversion Hrun as [t Hc Hok Ht Hres
                    | pre c wrap post tpre ev e Hp Hc Hok Hev He Ht Hres];
    [discriminate |].
  intro Heq. injection Heq as <-.
  assert (Hin : In (c, wrap) removePlan).
  { rewrite Hp. apply in_or_app. right. left. reflexivity. }
  apply removePlan_wrap in Hin. destruct Hin as [Hin ->].
  pose proof (removeCalls_kinds c Hin) as Hk.
  destruct c as [| | a u | | | | | | | | |]; try discriminate Hk.
  - destruct a; try discriminate Hk; reflexivity.
  - reflexivity.
  - exfalso. destruct ev as [c' r']. simpl in Hev. subst c'.
    unfold ev_err in He. simpl in He. discriminate He.
Qed.

(** Whenever SetupAgent returns an error, its forward sequence failed, the
    error is the one RemoveAgent returned during the rollback, so its
    message starts with [Failed to ], and it was logged as a warning. *)
Theorem SetupAgent_error_is_rollback_error
  {W : Type} (h : host W) (cmd : string) (w : W) (err : error) :
  result h (SetupAgent cmd) w = Some err ->
  let w0 := after h (StartSpan "setup_agent") w in
  exists e,
    result h (SetupAgentBody cmd) w0 = Some e /\
    result h RemoveAgent
      (after h (LogErrorf (Sprintf "Failed to setup agent: %s, reverting" [Error e]))
         (final h (SetupAgentBody cmd) w0)) = Some err /\
    HasPrefix (Error err) "Failed to " = true /\
    In (LogWarnf (Sprintf "Failed to revert agent setup: %s" [Error err]))
       (calls (trace h (SetupAgent cmd) w)).
Proof.
  intros Hres. cbv zeta.
  set (w0 := after h (StartSpan "setup_agent") w).
  destruct (result h (SetupAgentBody cmd) w0) as [e |] eqn:Hb.
  - destruct (SetupAgent_failed_run h cmd w e Hb) as [Hr Hc]. cbv zeta in Hr, Hc.
    fold w0 in Hr, Hc. rewrite Hres in Hr. symmetry in Hr.
    exists e. split; [reflexivity |]. split; [exact Hr |]. split.
    + exact (RemoveAgent_error_form h _ err Hr).
    + rewrite Hc, Hr. right. apply in_or_app. right. right.
      apply in_or_app. right. left. reflexivity.
  - exfalso. rewrite SetupAgent_result in Hres. cbv zeta in Hres.
    fold w0 in Hres. rewrite Hb in Hres.
    destruct (SetupAgentDeferred_nil h (final h (SetupAgentBody cmd) w0)) as [Hd _].
    congruence.
Qed.

(** Enabling fails, and then stopping fails during the rollback. *)
Lemma SetupAgent_error_is_rollback_error_witness :
  exists e,
    result (scripted "dd-installer dd-agent" enableAndStopFail)
      (SetupAgentBody helperCommand) tt = Some e /\
    result (scripted "dd-installer dd-agent" enableAndStopFail) RemoveAgent tt
      = Some (MkError "Failed to stop datadog-agent-exp.service: stop refused") /\
    HasPrefix "Failed to stop datadog-agent-exp.service: stop refused" "Failed to "
      = true /\
    In (LogWarnf (Sprintf "Failed to revert agent setup: %s"
                    ["Failed to stop datadog-agent-exp.service: stop refused"]))
       (calls (trace (scripted "dd-installer dd-agent" enableAndStopFail)
                 (SetupAgent helperCommand) tt)).
Proof.
  exact (SetupAgent_error_is_rollback_error
           (scripted "dd-installer dd-agent" enableAndStopFail) helperCommand tt
           (MkError "Failed to stop datadog-agent-exp.service: stop refused")
           eq_refl).
Defined.

(** Both orchestrators finish the span they start, on every path: the run
    of SetupAgent begins with the start of its span and ends with its
    finish, which carries the value SetupAgent returns; the run of
    RemoveAgent is its host operations between the start and the finish of
    its span, which carries no error even when RemoveAgent fails. *)
Theorem spans_bracket_every_run {W : Type} (h : host W) (cmd : string) (w : W) :
  (exists mid,
     calls (trace h (SetupAgent cmd) w)
     = StartSpan "setup_agent" :: mid
       ++ [FinishSpan "setup_agent" (result h (SetupAgent cmd) w)])
  /\
  calls (trace h RemoveAgent w)
  = StartSpan "remove_agent_units" :: hostOps (trace h RemoveAgent w)
    ++ [FinishSpan "remove_agent_units" None].
Proof.
  split.
  - set (w0 := after h (StartSpan "setup_agent") w).
    destruct (result h (SetupAgentBody cmd) w0) as [e |] eqn:Hb.
    + destruct (SetupAgent_failed_run h cmd w e Hb) as [Hr Hc].
      cbv zeta in Hr, Hc. fold w0 in Hr, Hc. rewrite Hc, Hr.
      eexists. f_equal.
      rewrite app_comm_cons, !app_assoc. reflexivity.
    + exists (calls (trace h (SetupAgentBody cmd) w0)).
      rewrite SetupAgent_result, SetupAgent_trace. cbv zeta. fold w0. rewrite Hb.
      destruct (SetupAgentDeferred_nil h (final h (SetupAgentBody cmd) w0))
        as [Hd Hdc].
      change (calls (?a :: ?t)) with (ev_call a :: calls t).
      rewrite calls_app, Hd, Hdc. reflexivity.
  - destruct (RemoveAgent_run h w) as [_ [_ Hc]]. cbv zeta in Hc.
    destruct (RemoveAgent_hostOps h w) as [Hops _]. rewrite Hops. exact Hc.
Qed.
